(** * Cartridge path comparison jobs

    A shallow embedding of the two job steps of the cartridge-comparison
    cartridge and of the helpers they call:

    - [cartridge/scripts/jobs/CartridgePathComparisonReport.js]
      ([safeParseArray], [normalizeCartridges], [fetchCartridges],
      [compareCartridges], [execute]);
    - [cartridge/scripts/service/OCAPIServices.js]
      ([getToken], [callDataOcapi]);
    - [cartridge/scripts/utils/mail] ([sendMail]);
    - [cartridge/scripts/jobs/SendSiteCartridgePathDifference.js]
      ([execute]).

    Script values are modelled by an inductive type of JavaScript values,
    the platform (services, files, mail, templates, clock) by a record of
    oracles that answer from the history of calls, and the scripts by
    functions in a state-and-exception monad over that history. *)

From Stdlib Require Import String Ascii List ZArith Lia Bool.
From Stdlib Require Import Decimal DecimalString.
From stdpp Require Import base gmap sets list strings.

Set Warnings "-register-all".

Local Open Scope list_scope.
Local Open Scope string_scope.

(** ** Strings

    A script string is a [string]; every [ascii] stands for one code unit
    below 256.  In that range the ECMAScript white space and line
    terminator code units are TAB, LF, VT, FF, CR, SP and NBSP. *)

Module Str.

Definition is_space (c : ascii) : bool :=
  match nat_of_ascii c with
  | 9 | 10 | 11 | 12 | 13 | 32 | 160 => true
  | _ => false
  end.

(** [s.split(sep)] for a one-character separator: never empty, one
    more segment than there are separators. *)
Fixpoint split (sep : ascii) (s : string) : list string :=
  match s with
  | EmptyString => [EmptyString]
  | String c rest =>
      if Ascii.eqb c sep then EmptyString :: split sep rest
      else match split sep rest with
           | seg :: segs => String c seg :: segs
           | [] => [String c EmptyString]
           end
  end.

Fixpoint trim_start (s : string) : string :=
  match s with
  | EmptyString => EmptyString
  | String c rest => if is_space c then trim_start rest else s
  end.

(** Drops the trailing white space: a character is kept when it is not
    white space or when something is kept after it. *)
Fixpoint trim_end (s : string) : string :=
  match s with
  | EmptyString => EmptyString
  | String c rest =>
      match trim_end rest with
      | EmptyString => if is_space c then EmptyString else String c EmptyString
      | kept => String c kept
      end
  end.

(** [s.trim()] *)
Definition trim (s : string) : string := trim_end (trim_start s).

(** [Boolean(s)]: a string is truthy when it is not empty. *)
Definition truthy (s : string) : bool :=
  match s with EmptyString => false | String _ _ => true end.

(** [segs.join(sep)] *)
Fixpoint join (sep : string) (segs : list string) : string :=
  match segs with
  | [] => EmptyString
  | [seg] => seg
  | seg :: rest => seg ++ sep ++ join sep rest
  end.

(** [s.replace(/c/g, d)] for single characters [c] and [d]. *)
Fixpoint replace_all (c d : ascii) (s : string) : string :=
  match s with
  | EmptyString => EmptyString
  | String x rest =>
      String (if Ascii.eqb x c then d else x) (replace_all c d rest)
  end.

Fixpoint all_space (s : string) : bool :=
  match s with
  | EmptyString => true
  | String c rest => is_space c && all_space rest
  end.

Fixpoint has_char (c : ascii) (s : string) : bool :=
  match s with
  | EmptyString => false
  | String x rest => Ascii.eqb x c || has_char c rest
  end.

Definition first_char (s : string) : option ascii :=
  match s with EmptyString => None | String c _ => Some c end.

Fixpoint last_char (s : string) : option ascii :=
  match s with
  | EmptyString => None
  | String c EmptyString => Some c
  | String _ rest => last_char rest
  end.

(** [s.startsWith(p)], also [s.indexOf(p) === 0] *)
Definition startsWith (s p : string) : bool := String.prefix p s.

Fixpoint rev (s : string) : string :=
  match s with
  | EmptyString => EmptyString
  | String c rest => rev rest ++ String c EmptyString
  end.

(** [s.endsWith(p)] *)
Definition endsWith (s p : string) : bool := String.prefix (rev p) (rev s).

(** [s.slice(-n)]: the last [n] characters, all of [s] when it is
    shorter. *)
Definition slice_last (n : nat) (s : string) : string :=
  String.substring (String.length s - n) n s.

(** Decimal notation of a natural number, as string concatenation with
    a number produces it. *)
Definition of_nat (n : nat) : string :=
  NilZero.string_of_uint (Nat.to_uint n).

(** The double quote character. *)
Definition dquote : ascii := ascii_of_nat 34.

End Str.

(** ** Script values

    The values [JSON.parse] produces, with [undefined] and [NaN], which
    reading them can yield.  Finite numbers are taken on the integers.
    An object lists its own properties, each key once. *)

Inductive JsNum :=
| NaN
| Fin (z : Z).

Inductive JsVal :=
| JUndefined
| JNull
| JBool (b : bool)
| JNumber (n : JsNum)
| JString (s : string)
| JArray (elems : list JsVal)
| JObject (fields : list (string * JsVal)).

(** A thrown value: an error object with its name and message. *)
Inductive Exn :=
| Thrown (name message : string).

Definition TypeError (msg : string) : Exn := Thrown "TypeError" msg.

Definition message (e : Exn) : string :=
  match e with Thrown _ m => m end.

(** ['' + e], that is [Error.prototype.toString]: the name alone when
    the message is empty, the message alone when the name is empty. *)
Definition Exn_toString (e : Exn) : string :=
  match e with
  | Thrown n m =>
      if negb (Str.truthy n) then m
      else if negb (Str.truthy m) then n
      else n ++ ": " ++ m
  end.

(** The outcome of evaluating an expression: a value or a throw. *)
Inductive Result (A : Type) :=
| Ok (a : A)
| Throw (e : Exn).

Arguments Ok {A} a.
Arguments Throw {A} e.

#[global] Instance Result_ret : MRet Result := fun A a => Ok a.
#[global] Instance Result_bind : MBind Result := fun A B f m =>
  match m with
  | Ok a => f a
  | Throw e => Throw e
  end.

Definition returns {A} (r : Result A) : bool :=
  match r with Ok _ => true | Throw _ => false end.

Module Js.

(** [ToBoolean] *)
Definition truthy (v : JsVal) : bool :=
  match v with
  | JUndefined | JNull => false
  | JBool b => b
  | JNumber NaN => false
  | JNumber (Fin z) => negb (Z.eqb z 0)
  | JString s => Str.truthy s
  | JArray _ | JObject _ => true
  end.

Fixpoint lookup_field (key : string) (fields : list (string * JsVal)) : JsVal :=
  match fields with
  | [] => JUndefined
  | (k, v) :: rest => if String.eqb k key then v else lookup_field key rest
  end.

Fixpoint set_field (key : string) (v : JsVal) (fields : list (string * JsVal))
  : list (string * JsVal) :=
  match fields with
  | [] => [(key, v)]
  | (k, old) :: rest =>
      if String.eqb k key then (k, v) :: rest
      else (k, old) :: set_field key v rest
  end.

(** [v.key] for the property names the scripts read ([cartridges],
    [elementsToReport], [cartridgediff]): own properties only, none of
    them is inherited or built in. *)
Definition get_prop (v : JsVal) (key : string) : Result JsVal :=
  match v with
  | JUndefined | JNull =>
      Throw (TypeError ("Cannot read property " ++ key ++ " of " ++
                        match v with JNull => "null" | _ => "undefined" end))
  | JObject fields => Ok (lookup_field key fields)
  | _ => Ok JUndefined
  end.

(** [v[i]] *)
Definition get_index (v : JsVal) (i : nat) : Result JsVal :=
  match v with
  | JUndefined | JNull =>
      Throw (TypeError ("Cannot read property " ++ Str.of_nat i ++ " of " ++
                        match v with JNull => "null" | _ => "undefined" end))
  | JArray elems => Ok (nth i elems JUndefined)
  | JString s =>
      Ok (match String.get i s with
          | Some c => JString (String c EmptyString)
          | None => JUndefined
          end)
  | JObject fields => Ok (lookup_field (Str.of_nat i) fields)
  | _ => Ok JUndefined
  end.

(** [v.length] *)
Definition get_length (v : JsVal) : Result JsVal :=
  match v with
  | JUndefined | JNull =>
      Throw (TypeError ("Cannot read property length of " ++
                        match v with JNull => "null" | _ => "undefined" end))
  | JArray elems => Ok (JNumber (Fin (Z.of_nat (length elems))))
  | JString s => Ok (JNumber (Fin (Z.of_nat (String.length s))))
  | JObject fields => Ok (lookup_field "length" fields)
  | _ => Ok JUndefined
  end.

(** [v.key = x] in strict mode.  On an array the property is an
    expando, which no script reads back. *)
Definition set_prop (v : JsVal) (key : string) (x : JsVal) : Result JsVal :=
  match v with
  | JObject fields => Ok (JObject (set_field key x fields))
  | JArray elems => Ok (JArray elems)
  | _ => Throw (TypeError ("Cannot set property " ++ key))
  end.

Section Coercion.

(** [ToNumber] on strings, arrays and objects goes through string
    conversion and numeric parsing, and can throw; it is left to the
    engine. *)
Variable ToNumber_engine : JsVal -> Result JsNum.

Definition ToNumber (v : JsVal) : Result JsNum :=
  match v with
  | JUndefined => Ok NaN
  | JNull => Ok (Fin 0)
  | JBool b => Ok (Fin (if b then 1 else 0))
  | JNumber n => Ok n
  | JString _ | JArray _ | JObject _ => ToNumber_engine v
  end.

(** [v > 0] *)
Definition gt_zero (v : JsVal) : Result bool :=
  n ← ToNumber v;
  mret (match n with NaN => false | Fin z => Z.ltb 0 z end).

(** [Math.max(a, b)] *)
Definition Math_max (a b : JsVal) : Result JsNum :=
  x ← ToNumber a;
  y ← ToNumber b;
  mret (match x, y with
        | Fin n, Fin m => Fin (Z.max n m)
        | _, _ => NaN
        end).

End Coercion.

End Js.

(** ** The platform

    [dw.system.Status], the records exchanged with the platform, and the
    calls the scripts make to it. *)

Inductive StatusKind := OK | ERROR.

(** [new Status(status, code, message)]; [new Status(status)] leaves code
    and message to the platform. *)
Record Status := {
  status : StatusKind;
  code : option string;
  msg : option string
}.

Definition Status3 (k : StatusKind) (c m : string) : Status :=
  {| status := k; code := Some c; msg := Some m |}.
Definition Status1 (k : StatusKind) : Status :=
  {| status := k; code := None; msg := None |}.

(** The parameter object of [callDataOcapi]. *)
Record Param := {
  token : JsVal;
  method : string;
  body : string;
  URL : string
}.

(** [dw.svc.Result] *)
Record Response := {
  ok : bool;
  svc_status : string;
  object : JsVal
}.

(** One entry of the report the comparison step writes. *)
Record ReportElement := {
  hostInstance : string;
  cartridgediff : list string
}.

Record StructuredDiff := {
  siteId : string;
  elementsToReport : list ReportElement
}.

(** [dw.io.File]: what the scripts read of it. *)
Record FileEntry := {
  name : string;
  fullPath : string
}.

(** The fields of [new Date()] the scripts read; months count from 0. *)
Record Date := {
  getFullYear : nat;
  getMonth : nat;
  getDate : nat
}.

Inductive Level := LDebug | LInfo | LWarn | LError.

(** A call to the platform, with its arguments.  Creating a service
    and calling it is one call, as are opening a reader, reading its
    lines and closing it, and building and setting the mail content. *)
Inductive Event :=
| EvLog (lvl : Level) (text : string) (args : list JsVal)
| EvTokenCall (serviceName : string)
| EvServiceCall (params : Param)
| EvExists (path : string)
| EvIsDirectory (path : string)
| EvMkdirs (path : string)
| EvListFiles (path : string)
| EvOpenWriter (path : string)
| EvWrite (path : string) (content : StructuredDiff)
| EvCloseWriter (path : string)
| EvReadLines (path : string)
| EvRenameTo (source target : string)
| EvTemplate (templatePath : option string)
| EvRender (templatePath : option string) (context : option (list (string * JsVal)))
| EvMailAddTo (to : list string)
| EvMailSetFrom (from : option string)
| EvMailAddCc (cc : option string)
| EvMailSetSubject (subject : option string)
| EvMailSetContent (html : string)
| EvMailSend.

(** What has been asked of the platform so far, oldest first. *)
Definition History := list Event.

(** The platform answers a call from what happened before it: whether
    the call throws, and what it returns otherwise.  [JSON.parse] and the
    numeric coercion of the engine depend on their argument alone.

    - [throws]: whether a call throws, and what;
    - [JSON_parse]: [JSON.parse], which throws on text that is not JSON;
    - [JSON_parse_hosts]: [JSON.parse] on the [hostInstances] parameter,
      at the type the step is configured with, an array of host names;
    - [ToNumber_engine]: [ToNumber] on strings, arrays and objects;
    - [token_object]: [authToken.call().object] of [getToken];
    - [service_result]: [service.call(params)] of [callDataOcapi];
    - [current_site_id]: [Site.getCurrent().getID()];
    - [File_IMPEX], [File_SEPARATOR]: the constants of [dw.io.File];
    - [File_fullPath]: [new File(path).fullPath];
    - [exists_], [isDirectory], [listFiles]: the methods of a [File];
    - [readLines]: the lines [readLine] yields until it returns [null];
    - [now]: the clock;
    - [render_text]: [template.render(...).text]. *)
Record Platform := {
  throws : History -> Event -> option Exn;
  JSON_parse : string -> Result JsVal;
  JSON_parse_hosts : string -> Result (list string);
  ToNumber_engine : JsVal -> Result JsNum;
  token_object : History -> string -> JsVal;
  service_result : History -> Param -> Response;
  current_site_id : string;
  File_IMPEX : string;
  File_SEPARATOR : string;
  File_fullPath : string -> string;
  exists_ : History -> string -> bool;
  isDirectory : History -> string -> bool;
  listFiles : History -> string -> option (list FileEntry);
  readLines : History -> string -> list string;
  now : History -> Date;
  render_text : History -> option string -> option (list (string * JsVal)) -> string
}.

(** ** Script computations: a history and a possible throw *)

Definition M (A : Type) : Type := History -> Result A * History.

#[global] Instance M_ret : MRet M := fun A a h => (Ok a, h).
#[global] Instance M_bind : MBind M := fun A B f m h =>
  match m h with
  | (Ok a, h') => f a h'
  | (Throw e, h') => (Throw e, h')
  end.

Definition throw {A} (e : Exn) : M A := fun h => (Throw e, h).

Definition lift {A} (r : Result A) : M A := fun h => (r, h).

(** [try { body } catch (e) { handler }] *)
Definition try_catch {A} (body : M A) (handler : Exn -> M A) : M A :=
  fun h =>
    match body h with
    | (Ok a, h') => (Ok a, h')
    | (Throw e, h') => handler e h'
    end.

(** A logger call: recorded, never throws. *)
Definition log (lvl : Level) (text : string) (args : list JsVal) : M unit :=
  fun h => (Ok tt, (h ++ [EvLog lvl text args])%list).

Section Calls.

Context (p : Platform).

(** A platform call that returns [answer]. *)
Definition ask {A} (ev : Event) (answer : History -> A) : M A :=
  fun h =>
    match throws p h ev with
    | Some e => (Throw e, (h ++ [ev])%list)
    | None => (Ok (answer h), (h ++ [ev])%list)
    end.

(** A platform call made for its effect. *)
Definition call (ev : Event) : M unit := ask ev (fun _ => tt).

(** [new Date()]: the clock is read, nothing is recorded. *)
Definition new_Date : M Date := fun h => (Ok (now p h), h).

End Calls.

(** [x] of a possibly undefined string, as string concatenation and
    [join] see it. *)
Definition opt_truthy (x : option string) : bool :=
  match x with Some s => Str.truthy s | None => false end.

Definition join_item (x : option string) : string :=
  match x with Some s => s | None => EmptyString end.

(** The date stamp of the report file names:
    ['' + y + ('0' + (m + 1)).slice(-2) + ('0' + d).slice(-2)] *)
Definition formattedDate (d : Date) : string :=
  Str.of_nat (getFullYear d)
  ++ Str.slice_last 2 ("0" ++ Str.of_nat (getMonth d + 1))
  ++ Str.slice_last 2 ("0" ++ Str.of_nat (getDate d)).

(** ** [scripts/service/OCAPIServices.js] *)

Module OCAPIServices.
Section WithPlatform.

Context (p : Platform).

(** [getToken]: the configured service is created and called; anything
    thrown on the way is logged and turned into [null]. *)
Definition getToken (serviceName : option string) : M JsVal :=
  try_catch
    (if negb (opt_truthy serviceName)
     then throw (Thrown "Error" "Missing required parameter: serviceName")
     else ask p (EvTokenCall (join_item serviceName))
                (fun h => token_object p h (join_item serviceName)))
    (fun e =>
       log LError ("[OCAPIServices.js] - Function getToken Error - " ++ message e) [];;
       mret JNull).

(** [callDataOcapi]: [result] stays [null] when creating or calling
    the service throws. *)
Definition callDataOcapi (params : Param) : M (option Response) :=
  try_catch
    (result ← ask p (EvServiceCall params) (fun h => service_result p h params);
     (if negb (String.eqb (svc_status result) "OK")
      then log LInfo "Server responded with code:{0}" [object result]
      else mret tt);;
     mret (Some result))
    (fun e =>
       log LError ("[OCAPIServices.js]Error while calling data OCAPI: " ++ Exn_toString e) [];;
       mret None).

End WithPlatform.
End OCAPIServices.

(** ** [scripts/jobs/CartridgePathComparisonReport.js] *)

Module CartridgePathComparisonReport.

(** [normalizeCartridges]:
    [cartridgeStr.split(':').map(c => c.trim()).filter(Boolean)] *)
Definition normalizeCartridges (cartridgeStr : string) : list string :=
  List.filter Str.truthy (List.map Str.trim (Str.split ":" cartridgeStr)).

(** [new Set(list)] and [set.has(item)] on strings. *)
Definition Set_of (l : list string) : gset string := list_to_set l.
Definition Set_has (s : gset string) (item : string) : bool :=
  bool_decide (item ∈ s).

Record DiffResult := {
  onlyInA : list string;
  onlyInB : list string
}.

(** [compareCartridges] on two arrays of strings. *)
Definition compareCartridges (listA listB : list string) : DiffResult :=
  let setA := Set_of listA in
  let setB := Set_of listB in
  let onlyInA := List.filter (fun item => negb (Set_has setB item)) listA in
  let onlyInB := List.filter (fun item => negb (Set_has setA item)) listB in
  {| onlyInA := onlyInA; onlyInB := onlyInB |}.

(** What [fetchCartridges] hands back: the normalized array, or the
    [Status] object it builds on failure. *)
Inductive Fetched :=
| Cartridges (list_ : list string)
| Failed (st : Status).

(** [ToBoolean] of a fetch result: arrays and objects are both truthy. *)
Definition Fetched_truthy (f : Fetched) : bool :=
  match f with
  | Cartridges _ => true
  | Failed _ => true
  end.

(** [new Set(x)] needs an iterable, and a [Status] is none. *)
Definition Set_of_fetched (f : Fetched) : Result (gset string) :=
  match f with
  | Cartridges l => Ok (Set_of l)
  | Failed _ => Throw (TypeError "object is not iterable")
  end.

(** [x.filter(callback)]: a [Status] has no such method. *)
Definition filter_fetched (callback : string -> bool) (f : Fetched)
  : Result (list string) :=
  match f with
  | Cartridges l => Ok (List.filter callback l)
  | Failed _ => Throw (TypeError "filter is not a function")
  end.

(** [compareCartridges] as [execute] calls it, on whatever
    [fetchCartridges] returned. *)
Definition compareCartridges_call (listA listB : Fetched) : Result DiffResult :=
  setA ← Set_of_fetched listA;
  setB ← Set_of_fetched listB;
  onlyInA ← filter_fetched (fun item => negb (Set_has setB item)) listA;
  onlyInB ← filter_fetched (fun item => negb (Set_has setA item)) listB;
  mret {| onlyInA := onlyInA; onlyInB := onlyInB |}.

(** [cartridgeStr.split(...)] on the [cartridges] field of a response:
    only a string has [split]. *)
Definition normalizeCartridges_call (cartridges : JsVal) : Result (list string) :=
  match cartridges with
  | JString s => Ok (normalizeCartridges s)
  | _ => Throw (TypeError "split is not a function")
  end.

(** The job parameters. *)
Record Args := {
  hostInstances : option string;
  ocapiVersion : option string;
  serviceName : option string;
  workingfolder : option string;
  disableStep : bool
}.

Section WithPlatform.

Context (p : Platform).

(** [safeParseArray]: single quotes become double quotes, then
    [JSON.parse]; a parse error is logged and gives the empty array. *)
Definition safeParseArray (str : string) : M (list string) :=
  try_catch
    (lift (JSON_parse_hosts p (Str.replace_all "'" Str.dquote str)))
    (fun e =>
       log LWarn "Failed to parse hostInstances: {0}" [JString (message e)];;
       mret []).

(** [fetchCartridges] *)
Definition fetchCartridges (host siteId ocapiVersion : string) (token : JsVal)
  : M Fetched :=
  let param := {| token := token;
                  method := "GET";
                  body := EmptyString;
                  URL := "https://" ++ host ++ "/s/-/dw/data/" ++ ocapiVersion
                         ++ "/sites/" ++ siteId |} in
  let failed : M Fetched :=
    log LError "Failed to get cartridges from host {0} for site {1}"
        [JString host; JString siteId];;
    mret (Failed (Status3 ERROR "ERROR" "Failed to fetch cartridges.")) in
  response ← OCAPIServices.callDataOcapi p param;
  match response with
  | None => throw (TypeError "Cannot read property ok of null")
  | Some response =>
      if negb (ok response) || negb (Js.truthy (object response))
      then failed
      else
        cartridges ← lift (Js.get_prop (object response) "cartridges");
        if negb (Js.truthy cartridges)
        then failed
        else
          l ← lift (normalizeCartridges_call cartridges);
          mret (Cartridges l)
  end.

(** The body of the [for] loop over the host pairs: [j] advances by
    two over an array of even length. *)
Fixpoint compare_pairs (hosts : list string) (siteId ocapiVersion : string)
    (token : JsVal) (elements : list ReportElement) : M (list ReportElement) :=
  match hosts with
  | host1 :: host2 :: rest =>
      cartridges1 ← fetchCartridges host1 siteId ocapiVersion token;
      cartridges2 ← fetchCartridges host2 siteId ocapiVersion token;
      elements' ←
        (if Fetched_truthy cartridges1 && Fetched_truthy cartridges2
         then
           diff ← lift (compareCartridges_call cartridges1 cartridges2);
           mret (elements
                 ++ [{| hostInstance := host1; cartridgediff := onlyInA diff |}]
                 ++ [{| hostInstance := host2; cartridgediff := onlyInB diff |}])%list
         else
           log LWarn "Skipping host pair due to fetch error: {0}, {1}"
               [JString host1; JString host2];;
           mret elements);
      compare_pairs rest siteId ocapiVersion token elements'
  | _ => mret elements
  end.

(** The [try] block that writes the report, with its [catch]. *)
Definition write_report (workingfolder : option string)
    (structuredDiff : StructuredDiff) : M unit :=
  try_catch
    (let baseDirPath :=
       Str.join (File_SEPARATOR p) [File_IMPEX p; "src"; join_item workingfolder] in
     there ← ask p (EvExists baseDirPath) (fun h => exists_ p h baseDirPath);
     (if negb there then call p (EvMkdirs baseDirPath) else mret tt);;
     now ← new_Date p;
     let fileName : string :=
       "cartridge_difference_" ++ formattedDate now ++ "_"
       ++ siteId structuredDiff ++ ".json" in
     let file : string := baseDirPath ++ File_SEPARATOR p ++ fileName in
     call p (EvOpenWriter file);;
     call p (EvWrite file structuredDiff);;
     call p (EvCloseWriter file);;
     log LInfo "Differences found. JSON written file: {0}"
         [JString (File_fullPath p file)])
    (fun e =>
       log LError "Error writing diff for site {0}: {1}"
           [JString (siteId structuredDiff); JString (message e)]).

(** [execute] *)
Definition execute (args : option Args) : M Status :=
  match args with
  | None => mret (Status3 ERROR "ERROR" "Missing required arguments.")
  | Some args =>
      if negb (opt_truthy (hostInstances args)) || negb (opt_truthy (ocapiVersion args))
      then mret (Status3 ERROR "ERROR" "Missing required arguments.")
      else if disableStep args
      then mret (Status3 OK "DISABLED" "Step disabled.")
      else
        hosts ← safeParseArray (join_item (hostInstances args));
        let ocapiVersion := join_item (ocapiVersion args) in
        if Nat.ltb (length hosts) 2 || negb (Nat.eqb (length hosts mod 2) 0)
        then mret (Status3 ERROR "ERROR"
                     "hostInstances must contain even number of hosts to form pairs.")
        else
          token ← OCAPIServices.getToken p (serviceName args);
          if negb (Js.truthy token)
          then
            log LError "Failed to fetch OCAPI token" [];;
            mret (Status3 ERROR "ERROR" "OCAPI token failed.")
          else
            let siteId := current_site_id p in
            log LInfo "Comparing cartridges for site: {0}" [JString siteId];;
            elements ← compare_pairs hosts siteId ocapiVersion token [];
            write_report (workingfolder args)
              {| siteId := siteId; elementsToReport := elements |};;
            mret (Status3 OK "OK" "Cartridge comparison completed.")
  end.

End WithPlatform.
End CartridgePathComparisonReport.

(** ** [scripts/utils/mail] *)

Definition JString_opt (x : option string) : JsVal :=
  match x with Some s => JString s | None => JUndefined end.

Module EmailUtils.
Section WithPlatform.

Context (p : Platform).

(** [!contextObject || Object.keys(contextObject).length === 0] *)
Definition no_context (contextObject : option (list (string * JsVal))) : bool :=
  match contextObject with
  | None => true
  | Some fields => Nat.eqb (length fields) 0
  end.

(** [sendMail]: [contextObject] is an object, or the empty string the
    notification step passes when there is nothing to report. *)
Definition sendMail (from : option string) (to : list string)
    (cc subject templatePath : option string)
    (contextObject : option (list (string * JsVal))) : M bool :=
  try_catch
    (call p (EvTemplate templatePath);;
     let context := match contextObject with
                    | Some fields => fields
                    | None => []
                    end in
     renderedHtml ←
       (if no_context contextObject
        then
          log LWarn "No context data provided for email template: {0}"
              [JString_opt templatePath];;
          ask p (EvRender templatePath None)
              (fun h => render_text p h templatePath None)
        else
          ask p (EvRender templatePath (Some context))
              (fun h => render_text p h templatePath (Some context)));
     call p (EvMailAddTo to);;
     call p (EvMailSetFrom from);;
     call p (EvMailAddCc cc);;
     call p (EvMailSetSubject subject);;
     call p (EvMailSetContent renderedHtml);;
     call p EvMailSend;;
     log LInfo ("Email successfully sent to: " ++ Str.join "," to) [];;
     mret true)
    (fun e =>
       log LError "Failed to send template email: {0}" [JString (message e)];;
       mret false).

End WithPlatform.
End EmailUtils.

(** ** [scripts/jobs/SendSiteCartridgePathDifference.js] *)

Module SendSiteCartridgePathDifference.

(** The job parameters. *)
Record Pdict := {
  emailTo : option string;
  emailFrom : option string;
  emailCC : option string;
  emailSubject : option string;
  emailSubjectWithoutDiff : option string;
  template : option string;
  workingfolder : option string
}.

(** The test on file names, the same when reading and when archiving. *)
Definition is_report_of (formattedDate fileName : string) : bool :=
  Str.startsWith fileName ("cartridge_difference_" ++ formattedDate)
  && Str.endsWith fileName ".json".

(** [xs.some(callback)] on an array: stops at the first element the
    callback accepts. *)
Fixpoint some {A} (callback : A -> Result bool) (xs : list A) : Result bool :=
  match xs with
  | [] => Ok false
  | x :: rest =>
      b ← callback x;
      if b : bool then Ok true else some callback rest
  end.

(** [xs.forEach(callback)] where the callback updates its argument. *)
Fixpoint forEach {A} (callback : A -> Result A) (xs : list A) : Result (list A) :=
  match xs with
  | [] => Ok []
  | x :: rest =>
      x' ← callback x;
      rest' ← forEach callback rest;
      Ok (x' :: rest')
  end.

(** [v.some(callback)] on any value: only an array has [some]. *)
Definition some_call (v : JsVal) (callback : JsVal -> Result bool) : Result bool :=
  match v with
  | JArray elems => some callback elems
  | JUndefined | JNull => Throw (TypeError "Cannot read property some of undefined")
  | _ => Throw (TypeError "some is not a function")
  end.

Section WithPlatform.

Context (p : Platform).

(** [siteData.elementsToReport[i] && siteData.elementsToReport[i].cartridgediff
     ? siteData.elementsToReport[i].cartridgediff.length : 0] *)
Definition len_at (siteData : JsVal) (i : nat) : Result JsVal :=
  elements ← Js.get_prop siteData "elementsToReport";
  element ← Js.get_index elements i;
  if Js.truthy element
  then
    diff ← Js.get_prop element "cartridgediff";
    if Js.truthy diff then Js.get_length diff else Ok (JNumber (Fin 0))
  else Ok (JNumber (Fin 0)).

(** The callback that adds [maxLen] to a report. *)
Definition add_maxLen (siteData : JsVal) : Result JsVal :=
  lenA ← len_at siteData 0;
  lenB ← len_at siteData 1;
  maxLen ← Js.Math_max (ToNumber_engine p) lenA lenB;
  Js.set_prop siteData "maxLen" (JNumber maxLen).

(** [report.cartridgediff && report.cartridgediff.length > 0], as
    [some] reads it. *)
Definition has_diff (report : JsVal) : Result bool :=
  diff ← Js.get_prop report "cartridgediff";
  if Js.truthy diff
  then
    len ← Js.get_length diff;
    Js.gt_zero (ToNumber_engine p) len
  else Ok false.

Definition site_has_diff (siteData : JsVal) : Result bool :=
  elements ← Js.get_prop siteData "elementsToReport";
  some_call elements has_diff.

Definition hasDiffData (combinedResults : list JsVal) : Result bool :=
  some site_has_diff combinedResults.

(** The first [for] loop: the day's report files are read and parsed;
    a file that does not parse is logged and left out. *)
Fixpoint read_reports (files : list FileEntry) (formattedDate : string)
    (combinedResults : list JsVal) : M (list JsVal) :=
  match files with
  | [] => mret combinedResults
  | file :: rest =>
      let fileName := name file in
      combinedResults' ←
        (if is_report_of formattedDate fileName
         then
           log LDebug ("Processing file: " ++ fileName) [];;
           lines ← ask p (EvReadLines (fullPath file))
                         (fun h => readLines p h (fullPath file));
           let content := String.concat EmptyString lines in
           try_catch
             (data ← lift (JSON_parse p content);
              log LDebug ("Parsed JSON from file: " ++ fileName) [];;
              mret (combinedResults ++ [data])%list)
             (fun jsonError =>
                log LError ("Failed to parse JSON content from file: " ++ fileName) [];;
                log LError ("Error: " ++ message jsonError) [];;
                log LError ("Content snippet: " ++ String.substring 0 200 content) [];;
                mret combinedResults)
         else
           log LDebug ("Skipping file (pattern mismatch): " ++ fileName) [];;
           mret combinedResults);
      read_reports rest formattedDate combinedResults'
  end.

(** The second [for] loop: the day's report files are moved. *)
Fixpoint archive_files (files : list FileEntry) (formattedDate archiveFolder : string)
  : M unit :=
  match files with
  | [] => mret tt
  | jsonFile :: rest =>
      (if is_report_of formattedDate (name jsonFile)
       then call p (EvRenameTo (fullPath jsonFile)
                      (File_fullPath p archiveFolder ++ File_SEPARATOR p ++ name jsonFile))
       else mret tt);;
      archive_files rest formattedDate archiveFolder
  end.

(** The [try] block that sends the mail and archives, with its
    [catch]. *)
Definition send_and_archive (pdict : Pdict) (workingFolderPath : string)
    (files : list FileEntry) (formattedDate : string)
    (combinedResults : list JsVal) (hasDiffData : bool)
    (emailSubject : option string) : M Status :=
  try_catch
    (log LInfo "Sending cartridge comparison report via email" [];;
     let templateToUse :=
       if hasDiffData then template pdict
       else Some "mail/utilitiesDifferenceNotFound.isml" in
     to ← match emailTo pdict with
          | Some s => mret (Str.split "," s)
          | None => throw (TypeError "Cannot call method split of undefined")
          end;
     EmailUtils.sendMail p (emailFrom pdict) to (emailCC pdict) emailSubject
       templateToUse
       (if hasDiffData
        then Some [("combinedResults", JArray combinedResults)]
        else None);;
     let archiveFolder : string :=
       File_fullPath p workingFolderPath ++ File_SEPARATOR p ++ "archive" in
     there ← ask p (EvExists archiveFolder) (fun h => exists_ p h archiveFolder);
     (if negb there then call p (EvMkdirs archiveFolder) else mret tt);;
     archive_files files formattedDate archiveFolder;;
     mret (Status1 OK))
    (fun e =>
       log LError ("Failed to send audit email: " ++ message e) [];;
       mret (Status1 ERROR)).

(** [execute] *)
Definition execute (pdict : Pdict) : M Status :=
  log LInfo "Starting Site Cartridge Path Comparison Email Job" [];;
  let workingFolderPath : string :=
    Str.join (File_SEPARATOR p) [File_IMPEX p; "src"; join_item (workingfolder pdict)] in
  there ← ask p (EvExists workingFolderPath) (fun h => exists_ p h workingFolderPath);
  directory ← (if there
               then ask p (EvIsDirectory workingFolderPath)
                        (fun h => isDirectory p h workingFolderPath)
               else mret false);
  if negb there || negb directory
  then
    log LWarn ("Cartridge results folder does not exist or is not a directory: "
               ++ workingFolderPath) [];;
    mret (Status1 OK)
  else
    files ← ask p (EvListFiles workingFolderPath)
                  (fun h => listFiles p h workingFolderPath);
    match files with
    | None | Some [] =>
        log LInfo ("No files found in working folder: " ++ workingFolderPath) [];;
        mret (Status1 OK)
    | Some files =>
        now ← new_Date p;
        let formattedDate := formattedDate now in
        log LInfo ("Looking for cartridge diff files matching date: " ++ formattedDate) [];;
        parsed ← read_reports files formattedDate [];
        if Nat.eqb (length parsed) 0
        then
          log LInfo "No valid cartridge diff JSON data found to process." [];;
          mret (Status1 OK)
        else
          combinedResults ← lift (forEach add_maxLen parsed);
          anyDiff ← lift (hasDiffData combinedResults);
          let emailSubject :=
            if anyDiff : bool then emailSubject pdict
            else emailSubjectWithoutDiff pdict in
          (if negb anyDiff
           then log LInfo "No cartridge path differences found in audit data." []
           else mret tt);;
          send_and_archive pdict workingFolderPath files formattedDate
            combinedResults anyDiff emailSubject
    end.

End WithPlatform.
End SendSiteCartridgePathDifference.

(** * Notions of the specification *)

(** The segments of a string are the pieces between its colons, and
    trimming a segment removes the white space around it. *)
Definition segments_of (s : string) (segs : list string) : Prop :=
  Str.join ":" segs = s
  /\ Forall (fun seg => Str.has_char ":" seg = false) segs.

Definition no_space_at (c : option ascii) : bool :=
  match c with Some c => negb (Str.is_space c) | None => true end.

Definition trimmed_of (seg t : string) : Prop :=
  exists before after,
    seg = before ++ t ++ after
    /\ Str.all_space before = true /\ Str.all_space after = true
    /\ no_space_at (Str.first_char t) = true
    /\ no_space_at (Str.last_char t) = true.

(** The entries of a history that are logger calls. *)
Definition is_log (ev : Event) : bool :=
  match ev with EvLog _ _ _ => true | _ => false end.

(** None of the platform calls recorded in [h'] after [h] threw. *)
Definition calls_succeed (p : Platform) (h h' : History) : Prop :=
  forall pre ev post,
    h' = (pre ++ ev :: post)%list -> length h <= length pre ->
    is_log ev = false -> throws p pre ev = None.

(** What a history shows of the outside world: the URLs fetched, the
    reports written, the files moved. *)
Definition fetched (h : History) : list string :=
  omap (fun ev => match ev with EvServiceCall prm => Some (URL prm) | _ => None end) h.

Definition written (h : History) : list StructuredDiff :=
  omap (fun ev => match ev with EvWrite _ content => Some content | _ => None end) h.

Definition renamed (h : History) : list (string * string) :=
  omap (fun ev => match ev with EvRenameTo src dst => Some (src, dst) | _ => None end) h.

(** * The shape of a report

    A site report is an object whose [elementsToReport] is an array of
    objects, each with an array under [cartridgediff]. *)

Definition diff_of (element : JsVal) : option (list JsVal) :=
  match element with
  | JObject fields =>
      match Js.lookup_field "cartridgediff" fields with
      | JArray diff => Some diff
      | _ => None
      end
  | _ => None
  end.

Definition elements_of (report : JsVal) : option (list JsVal) :=
  match report with
  | JObject fields =>
      match Js.lookup_field "elementsToReport" fields with
      | JArray elements => Some elements
      | _ => None
      end
  | _ => None
  end.

(** The [cartridgediff] arrays of a report, of all its elements. *)
Definition diffs_of (report : JsVal) : list (list JsVal) :=
  match elements_of report with
  | Some elements => omap diff_of elements
  | None => []
  end.

Definition is_element (element : JsVal) : bool :=
  match diff_of element with Some _ => true | None => false end.

Definition is_site_report (report : JsVal) : bool :=
  match elements_of report with
  | Some elements => forallb is_element elements
  | None => false
  end.

(** A parsed value has no [elementsToReport] at all: it is not an
    object, or the property is absent or [null]. *)
Definition elements_missing (v : JsVal) : bool :=
  match v with
  | JObject fields =>
      match Js.lookup_field "elementsToReport" fields with
      | JUndefined | JNull => true
      | _ => false
      end
  | _ => true
  end.

(** * Concrete runs

    A platform on which every call goes through, and the variations of
    it the examples need.  The site is [RefArch], the day is 3 November
    2026, the working folder is [cartridges]. *)

Module Scenario.

Import CartridgePathComparisonReport SendSiteCartridgePathDifference.

(** A JSON string literal. *)
Definition q (s : string) : string :=
  String Str.dquote s ++ String Str.dquote EmptyString.

(** The host list of the job configuration, single-quoted. *)
Definition four_hosts : string := "['h1','h2','h3','h4']".
Definition three_hosts : string := "['h1','h2','h3']".

Definition parse_hosts (s : string) : Result (list string) :=
  if String.eqb s (Str.replace_all "'" Str.dquote four_hosts)
  then Ok ["h1"; "h2"; "h3"; "h4"]
  else if String.eqb s (Str.replace_all "'" Str.dquote three_hosts)
  then Ok ["h1"; "h2"; "h3"]
  else Throw (Thrown "SyntaxError" "Unexpected token").

(** The report files of the day and what they hold. *)
Definition report_text : string :=
  "{" ++ q "siteId" ++ ":" ++ q "RefArch" ++ "," ++ q "elementsToReport" ++ ":[{"
  ++ q "hostInstance" ++ ":" ++ q "h1" ++ "," ++ q "cartridgediff" ++ ":[" ++ q "c" ++ "]},{"
  ++ q "hostInstance" ++ ":" ++ q "h2" ++ "," ++ q "cartridgediff" ++ ":[]}]}".

Definition report_value : JsVal :=
  JObject [("siteId", JString "RefArch");
           ("elementsToReport",
             JArray [JObject [("hostInstance", JString "h1");
                              ("cartridgediff", JArray [JString "c"])];
                     JObject [("hostInstance", JString "h2");
                              ("cartridgediff", JArray [])]])].

(** A file that is valid JSON with a number where the array should be. *)
Definition odd_text : string := "{" ++ q "elementsToReport" ++ ":5}".
Definition odd_value : JsVal := JObject [("elementsToReport", JNumber (Fin 5))].

(** A file that holds a JSON number. *)
Definition number_text : string := "5".
Definition number_value : JsVal := JNumber (Fin 5).

Definition parse (s : string) : Result JsVal :=
  if String.eqb s report_text then Ok report_value
  else if String.eqb s odd_text then Ok odd_value
  else if String.eqb s number_text then Ok number_value
  else Throw (Thrown "SyntaxError" "Unexpected token").

Definition folder : string := "IMPEX/src/cartridges".

Definition file_A : FileEntry :=
  {| name := "cartridge_difference_20261103_RefArch.json";
     fullPath := "/IMPEX/src/cartridges/cartridge_difference_20261103_RefArch.json" |}.
Definition file_B : FileEntry :=
  {| name := "cartridge_difference_20261103_Other.json";
     fullPath := "/IMPEX/src/cartridges/cartridge_difference_20261103_Other.json" |}.

Definition lines_of (files : list (FileEntry * string)) (path : string) : list string :=
  match List.find (fun f => String.eqb (fullPath (fst f)) path) files with
  | Some f => [snd f]
  | None => []
  end.

(** The cartridge path each host answers with; [h1] is the host that
    can be made to fail. *)
Definition cartridges_of (url : string) : string :=
  if String.eqb url "https://h1/s/-/dw/data/v23_2/sites/RefArch" then "a:b:c"
  else if String.eqb url "https://h2/s/-/dw/data/v23_2/sites/RefArch" then "a:b"
  else if String.eqb url "https://h3/s/-/dw/data/v23_2/sites/RefArch" then "x:y"
  else "x:y:z".

Definition answer (h1_down : bool) (prm : Param) : Response :=
  if h1_down && String.eqb (URL prm) "https://h1/s/-/dw/data/v23_2/sites/RefArch"
  then {| ok := false; svc_status := "SERVICE_UNAVAILABLE"; object := JNull |}
  else {| ok := true; svc_status := "OK";
          object := JObject [("cartridges", JString (cartridges_of (URL prm)))] |}.

(** The platform: [failing] says which calls throw, [h1_down] whether
    host [h1] answers, [files] what the working folder holds. *)
Definition platform (failing : Event -> option Exn) (h1_down : bool)
    (files : list (FileEntry * string)) : Platform :=
  {| throws := fun _ ev => failing ev;
     JSON_parse := parse;
     JSON_parse_hosts := parse_hosts;
     ToNumber_engine := fun _ => Ok NaN;
     token_object := fun _ _ => JString "token";
     service_result := fun _ prm => answer h1_down prm;
     current_site_id := "RefArch";
     File_IMPEX := "IMPEX";
     File_SEPARATOR := "/";
     File_fullPath := fun path => if Str.startsWith path "/" then path else "/" ++ path;
     exists_ := fun _ path => String.eqb path folder;
     isDirectory := fun _ path => String.eqb path folder;
     listFiles := fun _ _ => Some (List.map fst files);
     readLines := fun _ path => lines_of files path;
     now := fun _ => {| getFullYear := 2026; getMonth := 10; getDate := 3 |};
     render_text := fun _ _ _ => "<html></html>" |}.

Definition nothing_fails (ev : Event) : option Exn := None.

Definition mail_down (ev : Event) : option Exn :=
  match ev with
  | EvMailSend => Some (Thrown "Error" "mail transport unavailable")
  | _ => None
  end.

Definition disk_full (ev : Event) : option Exn :=
  match ev with
  | EvWrite _ _ => Some (Thrown "IOError" "no space left on device")
  | _ => None
  end.

Definition args (hosts : string) (disabled : bool) : Args :=
  {| hostInstances := Some hosts;
     ocapiVersion := Some "v23_2";
     CartridgePathComparisonReport.serviceName := Some "ocapi.auth";
     CartridgePathComparisonReport.workingfolder := Some "cartridges";
     disableStep := disabled |}.

Definition pdict : Pdict :=
  {| emailTo := Some "ops@example.com,dev@example.com";
     emailFrom := Some "noreply@example.com";
     emailCC := Some "lead@example.com";
     emailSubject := Some "Cartridge path differences";
     emailSubjectWithoutDiff := Some "No cartridge path differences";
     template := Some "mail/cartridgeDifference.isml";
     SendSiteCartridgePathDifference.workingfolder := Some "cartridges" |}.

(** The history of the notification step once it has read the two
    files [file_A] and [file_B]. *)
Definition two_files_read : History :=
  [EvLog LInfo "Starting Site Cartridge Path Comparison Email Job" [];
   EvExists "IMPEX/src/cartridges";
   EvIsDirectory "IMPEX/src/cartridges";
   EvListFiles "IMPEX/src/cartridges";
   EvLog LInfo "Looking for cartridge diff files matching date: 20261103" [];
   EvLog LDebug "Processing file: cartridge_difference_20261103_RefArch.json" [];
   EvReadLines "/IMPEX/src/cartridges/cartridge_difference_20261103_RefArch.json";
   EvLog LDebug "Parsed JSON from file: cartridge_difference_20261103_RefArch.json" [];
   EvLog LDebug "Processing file: cartridge_difference_20261103_Other.json" [];
   EvReadLines "/IMPEX/src/cartridges/cartridge_difference_20261103_Other.json";
   EvLog LDebug "Parsed JSON from file: cartridge_difference_20261103_Other.json" []].

End Scenario.

(** * Phases of the two steps *)

(** The calls to the file system, and a platform on which none of them
    throws. *)
Definition is_file_call (ev : Event) : bool :=
  match ev with
  | EvExists _ | EvIsDirectory _ | EvMkdirs _ | EvListFiles _ | EvOpenWriter _
  | EvWrite _ _ | EvCloseWriter _ | EvReadLines _ | EvRenameTo _ _ => true
  | _ => false
  end.

Definition file_system_healthy (p : Platform) : Prop :=
  forall h ev, is_file_call ev = true -> throws p h ev = None.

(** Where the notification step moves a report file. *)
Definition archive_target (p : Platform) (workingFolderPath : string)
    (file : FileEntry) : string :=
  File_fullPath p (File_fullPath p workingFolderPath ++ File_SEPARATOR p ++ "archive")
  ++ File_SEPARATOR p ++ name file.

(** The comparison step reaches its persistence phase: the arguments are
    there, the step is enabled, the host list is even and not empty, a
    token was obtained and the loop over the pairs came to its end with
    the report elements [elements], leaving the history [h3]. *)
Definition reaches_persistence (p : Platform)
    (a : CartridgePathComparisonReport.Args) (h : History)
    (elements : list ReportElement) (h3 : History) : Prop :=
  let ver := join_item (CartridgePathComparisonReport.ocapiVersion a) in
  opt_truthy (CartridgePathComparisonReport.hostInstances a) = true
  /\ opt_truthy (CartridgePathComparisonReport.ocapiVersion a) = true
  /\ CartridgePathComparisonReport.disableStep a = false
  /\ exists hosts h1 tok h2,
      CartridgePathComparisonReport.safeParseArray p
        (join_item (CartridgePathComparisonReport.hostInstances a)) h = (Ok hosts, h1)
      /\ 2 <= length hosts /\ length hosts mod 2 = 0
      /\ OCAPIServices.getToken p (CartridgePathComparisonReport.serviceName a) h1
         = (Ok tok, h2)
      /\ Js.truthy tok = true
      /\ CartridgePathComparisonReport.compare_pairs p hosts (current_site_id p) ver tok []
           (h2 ++ [EvLog LInfo "Comparing cartridges for site: {0}"
                     [JString (current_site_id p)]])%list
         = (Ok elements, h3).

(** The notification step has read the files of the day: the working
    folder is there and lists some files, and reading them gave the
    parsed values [parsed], leaving the history [h4]. *)
Definition reads (p : Platform) (pdict : SendSiteCartridgePathDifference.Pdict)
    (h : History) (parsed : list JsVal) (h4 : History) : Prop :=
  let path := Str.join (File_SEPARATOR p)
                [File_IMPEX p; "src";
                 join_item (SendSiteCartridgePathDifference.workingfolder pdict)] in
  exists h1 h2 files h3,
    ask p (EvExists path) (fun h => exists_ p h path)
        (h ++ [EvLog LInfo "Starting Site Cartridge Path Comparison Email Job" []])%list
    = (Ok true, h1)
    /\ ask p (EvIsDirectory path) (fun h => isDirectory p h path) h1 = (Ok true, h2)
    /\ ask p (EvListFiles path) (fun h => listFiles p h path) h2 = (Ok (Some files), h3)
    /\ files <> []
    /\ SendSiteCartridgePathDifference.read_reports p files (formattedDate (now p h3)) []
         (h3 ++ [EvLog LInfo ("Looking for cartridge diff files matching date: "
                              ++ formattedDate (now p h3)) []])%list
       = (Ok parsed, h4).

(** * Further notions *)

(** A cartridge name as [normalizeCartridges] yields them: not empty,
    without a colon, without white space at either end. *)
Definition is_cartridge_name (t : string) : bool :=
  Str.truthy t
  && negb (Str.has_char ":" t)
  && no_space_at (Str.first_char t)
  && no_space_at (Str.last_char t).

(** A computation that, from any history, adds only events that satisfy
    [P], whether it returns or throws. *)
Definition emits {A} (P : Event -> Prop) (m : M A) : Prop :=
  forall h, exists extra, snd (m h) = (h ++ extra)%list /\ Forall P extra.

(** The request [fetchCartridges] builds for a host. *)
Definition data_request (host siteId ocapiVersion : string) (token : JsVal) : Param :=
  {| token := token;
     method := "GET";
     body := EmptyString;
     URL := "https://" ++ host ++ "/s/-/dw/data/" ++ ocapiVersion ++ "/sites/" ++ siteId |}.

(** The paths of the files a history shows as read. *)
Definition reads_of (h : History) : list string :=
  omap (fun ev => match ev with EvReadLines path => Some path | _ => None end) h.

(** The two entries of each host pair of a report have no cartridge in
    common. *)
Fixpoint pairs_disjoint (elements : list ReportElement) : Prop :=
  match elements with
  | first :: second :: rest =>
      Forall (fun x => ~ In x (cartridgediff second)) (cartridgediff first)
      /\ pairs_disjoint rest
  | _ => True
  end.

(** The warning of the branch that skips a host pair. *)
Definition is_skip_warning (ev : Event) : Prop :=
  exists args, ev = EvLog LWarn "Skipping host pair due to fetch error: {0}, {1}" args.

(** What the loop may ask of the platform: a log entry other than the
    warning of a skipped pair, or a request to one of the hosts. *)
Definition loop_event (hosts : list string) (siteId ocapiVersion : string)
    (token : JsVal) (ev : Event) : Prop :=
  (is_log ev = true /\ ~ is_skip_warning ev)
  \/ exists host, In host hosts
                  /\ ev = EvServiceCall (data_request host siteId ocapiVersion token).

(** The comparison step has a token in hand, or [null] for one: the
    arguments are there, the step is enabled, the host list [hosts] is
    even and not empty, and [getToken] returned [tok], leaving the
    history [h2]. *)
Definition asks_token (p : Platform) (a : CartridgePathComparisonReport.Args)
    (h : History) (hosts : list string) (tok : JsVal) (h2 : History) : Prop :=
  opt_truthy (CartridgePathComparisonReport.hostInstances a) = true
  /\ opt_truthy (CartridgePathComparisonReport.ocapiVersion a) = true
  /\ CartridgePathComparisonReport.disableStep a = false
  /\ exists h1,
      CartridgePathComparisonReport.safeParseArray p
        (join_item (CartridgePathComparisonReport.hostInstances a)) h = (Ok hosts, h1)
      /\ 2 <= length hosts /\ length hosts mod 2 = 0
      /\ OCAPIServices.getToken p (CartridgePathComparisonReport.serviceName a) h1
         = (Ok tok, h2).

(** The name of the report file of a day and a site, and the reports a
    history shows as written, each with its path. *)
Definition report_file_name (d : Date) (siteId : string) : string :=
  "cartridge_difference_" ++ formattedDate d ++ "_" ++ siteId ++ ".json".

Definition written_to (h : History) : list (string * StructuredDiff) :=
  omap (fun ev => match ev with
                  | EvWrite path content => Some (path, content)
                  | _ => None
                  end) h.

(** The length of the [cartridgediff] array of the element of rank [i]
    of a site report, 0 when there is no such element. *)
Definition diff_length_at (report : JsVal) (i : nat) : nat :=
  nth i (List.map (@length JsVal) (diffs_of report)) 0.

(** A number below 100 on two digits. *)
Definition two_digits (n : nat) : string :=
  if Nat.ltb n 10 then "0" ++ Str.of_nat n else Str.of_nat n.

(** More of the concrete runs: a host list that is not JSON, a remote
    service that cannot be reached. *)
Module Scenario2.

Definition bare_hosts : string := "h1,h2".

Definition service_down (ev : Event) : option Exn :=
  match ev with
  | EvServiceCall _ => Some (Thrown "ServiceUnavailableException" "connection refused")
  | _ => None
  end.

(** The job parameters without a service name. *)
Definition args_without_service : CartridgePathComparisonReport.Args :=
  {| CartridgePathComparisonReport.hostInstances := Some Scenario.four_hosts;
     CartridgePathComparisonReport.ocapiVersion := Some "v23_2";
     CartridgePathComparisonReport.serviceName := None;
     CartridgePathComparisonReport.workingfolder := Some "cartridges";
     CartridgePathComparisonReport.disableStep := false |}.

End Scenario2.

(** * Properties *)

(** ** The difference of two cartridge lists *)

Section CompareCartridges.

Import CartridgePathComparisonReport.

Lemma Set_has_spec (l : list string) (x : string) :
  Set_has (Set_of l) x = bool_decide (x ∈ l).
Proof.
  unfold Set_has, Set_of. apply bool_decide_ext. set_solver.
Qed.

(** The two fields are the elements of a list for which [has] on the
    set of the other list says no. *)
Lemma compareCartridges_filter (listA listB : list string) :
  onlyInA (compareCartridges listA listB)
    = List.filter (fun x => negb (bool_decide (x ∈ listB))) listA
  /\ onlyInB (compareCartridges listA listB)
    = List.filter (fun y => negb (bool_decide (y ∈ listA))) listB.
Proof.
  unfold compareCartridges; simpl; split;
    apply List.filter_ext; intros x; now rewrite Set_has_spec.
Qed.

Lemma absent_filter_Forall (l other : list string) :
  Forall (fun x => Forall (fun b => x <> b) other)
         (List.filter (fun x => negb (bool_decide (x ∈ other))) l).
Proof.
  apply List.Forall_forall. intros x Hx.
  apply List.filter_In in Hx as [_ Hx].
  apply negb_true_iff, bool_decide_eq_false in Hx.
  apply List.Forall_forall. intros b Hb ->.
  apply Hx, list_elem_of_In, Hb.
Qed.

Lemma absent_filter_sublist (l other : list string) :
  sublist (List.filter (fun x => negb (bool_decide (x ∈ other))) l) l.
Proof.
  induction l as [|a l IH]; simpl.
  - constructor.
  - destruct (negb (bool_decide (a ∈ other))).
    + now apply sublist_skip.
    + now apply sublist_cons.
Qed.

Lemma absent_filter_count (l other : list string) (x : string) :
  count_occ string_dec (List.filter (fun x => negb (bool_decide (x ∈ other))) l) x
  = if decide (x ∈ other) then 0 else count_occ string_dec l x.
Proof.
  induction l as [|a l IH]; simpl.
  - now destruct (decide (x ∈ other)).
  - destruct (bool_decide (a ∈ other)) eqn:Ha; simpl.
    + apply bool_decide_eq_true in Ha.
      destruct (string_dec a x) as [->|Hne]; [|exact IH].
      rewrite IH. now destruct (decide (x ∈ other)).
    + apply bool_decide_eq_false in Ha.
      destruct (string_dec a x) as [->|Hne]; [|exact IH].
      rewrite IH. now destruct (decide (x ∈ other)).
Qed.

(** C3: whatever the two lists, no element of [onlyInA] equals an
    element of [listB], and no element of [onlyInB] equals an element
    of [listA]; strings are compared by equality. *)
Theorem compareCartridges_disjoint (listA listB : list string) :
  Forall (fun a => Forall (fun b => a <> b) listB)
         (onlyInA (compareCartridges listA listB))
  /\ Forall (fun b => Forall (fun a => b <> a) listA)
            (onlyInB (compareCartridges listA listB)).
Proof.
  destruct (compareCartridges_filter listA listB) as [-> ->].
  split; apply absent_filter_Forall.
Qed.

(** C6: nothing is deduplicated within a list.  [onlyInA] is a
    subsequence of [listA], so the order of [listA] is kept, and it
    holds every string that is absent from [listB] as many times as
    [listA] does (and no string of [listB]); the same for [onlyInB]. *)
Theorem compareCartridges_keeps_duplicates (listA listB : list string) (x : string) :
  sublist (onlyInA (compareCartridges listA listB)) listA
  /\ sublist (onlyInB (compareCartridges listA listB)) listB
  /\ count_occ string_dec (onlyInA (compareCartridges listA listB)) x
     = (if decide (x ∈ listB) then 0 else count_occ string_dec listA x)
  /\ count_occ string_dec (onlyInB (compareCartridges listA listB)) x
     = (if decide (x ∈ listA) then 0 else count_occ string_dec listB x).
Proof.
  destruct (compareCartridges_filter listA listB) as [-> ->].
  repeat split;
    auto using absent_filter_sublist, absent_filter_count.
Qed.

End CompareCartridges.

(** ** Splitting and trimming the cartridge path *)

Section NormalizeCartridges.

Import CartridgePathComparisonReport.

#[local] Arguments String.append : simpl nomatch.

Lemma split_nonempty (sep : ascii) (s : string) : Str.split sep s <> [].
Proof.
  destruct s as [|c s]; simpl; [discriminate|].
  destruct (Ascii.eqb c sep); [discriminate|].
  destruct (Str.split sep s); discriminate.
Qed.

Lemma join_split (s : string) : Str.join ":" (Str.split ":" s) = s.
Proof.
  induction s as [|c s IH]; [reflexivity|].
  simpl. destruct (Ascii.eqb c ":") eqn:Hc.
  - apply Ascii.eqb_eq in Hc as ->.
    pose proof (split_nonempty ":" s) as Hne.
    destruct (Str.split ":" s) as [|seg segs] eqn:Hs; [contradiction|].
    change (Str.join ":" (EmptyString :: seg :: segs))
      with (EmptyString ++ ":" ++ Str.join ":" (seg :: segs)).
    simpl. now rewrite <- IH.
  - pose proof (split_nonempty ":" s) as Hne.
    destruct (Str.split ":" s) as [|seg segs] eqn:Hs; [contradiction|].
    rewrite <- IH. destruct segs; reflexivity.
Qed.

Lemma split_no_sep (s : string) :
  Forall (fun seg => Str.has_char ":" seg = false) (Str.split ":" s).
Proof.
  induction s as [|c s IH]; simpl.
  - repeat constructor.
  - destruct (Ascii.eqb c ":") eqn:Hc.
    + constructor; [reflexivity|exact IH].
    + destruct (Str.split ":" s) as [|seg segs]; simpl.
      * repeat constructor; simpl. now rewrite Hc.
      * inversion IH; subst. constructor; [|assumption].
        simpl. now rewrite Hc.
Qed.

Lemma trim_start_spec (s : string) :
  exists before, s = before ++ Str.trim_start s
                 /\ Str.all_space before = true
                 /\ no_space_at (Str.first_char (Str.trim_start s)) = true.
Proof.
  induction s as [|c s (before & Heq & Hsp & Hfirst)]; simpl.
  - exists EmptyString. auto.
  - destruct (Str.is_space c) eqn:Hc.
    + exists (String c before). simpl. rewrite Hc, <- Heq. auto.
    + exists EmptyString. simpl. rewrite Hc. auto.
Qed.

Lemma trim_end_spec (s : string) :
  exists after, s = Str.trim_end s ++ after
                /\ Str.all_space after = true
                /\ no_space_at (Str.last_char (Str.trim_end s)) = true
                /\ Str.first_char (Str.trim_end s)
                   = match Str.trim_end s with
                     | EmptyString => None
                     | _ => Str.first_char s
                     end.
Proof.
  induction s as [|c s (after & Heq & Hsp & Hlast & _)]; simpl.
  - exists EmptyString. auto.
  - destruct (Str.trim_end s) as [|k kept] eqn:Hk.
    + destruct (Str.is_space c) eqn:Hc.
      * exists (String c after). simpl in *. rewrite Hc. subst s. auto.
      * exists after. simpl in *. rewrite Hc. subst s. auto.
    + exists after. simpl in *. rewrite <- Heq. auto.
Qed.

Lemma trim_spec (seg : string) : trimmed_of seg (Str.trim seg).
Proof.
  unfold trimmed_of, Str.trim.
  destruct (trim_start_spec seg) as (before & Hb & Hbsp & Hfirst).
  destruct (trim_end_spec (Str.trim_start seg)) as (after & Ha & Hasp & Hlast & Hf).
  exists before, after. repeat split; auto.
  - rewrite <- Ha. exact Hb.
  - rewrite Hf. destruct (Str.trim_end (Str.trim_start seg)); auto.
Qed.

(** C7: the result is made of the segments between the colons of the
    input, each trimmed of the white space around it, the empty ones
    left out, in the order of the input; and the path of the
    specification gives the three names. *)
Theorem normalizeCartridges_spec (cartridgeStr : string) :
  (exists segs trimmed,
      segments_of cartridgeStr segs
      /\ Forall2 trimmed_of segs trimmed
      /\ normalizeCartridges cartridgeStr
         = List.filter (fun t => negb (String.eqb t EmptyString)) trimmed)
  /\ normalizeCartridges "a : b:: c " = ["a"; "b"; "c"].
Proof.
  split; [|reflexivity].
  exists (Str.split ":" cartridgeStr), (List.map Str.trim (Str.split ":" cartridgeStr)).
  split; [split; [apply join_split|apply split_no_sep]|].
  split.
  - induction (Str.split ":" cartridgeStr); simpl; constructor;
      auto using trim_spec.
  - unfold normalizeCartridges. apply List.filter_ext.
    now intros [|c t].
Qed.

End NormalizeCartridges.

(** ** Running script computations *)

Section Running.

Context (p : Platform).

Lemma ask_ok {A} (ev : Event) (answer : History -> A) (h : History) :
  throws p h ev = None -> ask p ev answer h = (Ok (answer h), (h ++ [ev])%list).
Proof. unfold ask. now intros ->. Qed.

Lemma ask_throw {A} (ev : Event) (answer : History -> A) (h : History) (e : Exn) :
  throws p h ev = Some e -> ask p ev answer h = (Throw e, (h ++ [ev])%list).
Proof. unfold ask. now intros ->. Qed.

Lemma bind_lift {A B} (r : Result A) (k : A -> M B) (h : History) :
  (lift r ≫= k) h = match r with Ok a => k a h | Throw e => (Throw e, h) end.
Proof. now destruct r. Qed.

Lemma calls_succeed_refl (h : History) : calls_succeed p h h.
Proof.
  intros pre ev post Heq Hlen _. exfalso.
  apply (f_equal (@length _)) in Heq. rewrite length_app in Heq. simpl in Heq. lia.
Qed.

Lemma calls_succeed_snoc (h h' : History) (ev : Event) :
  calls_succeed p h h' ->
  (is_log ev = false -> throws p h' ev = None) ->
  calls_succeed p h (h' ++ [ev])%list.
Proof.
  intros Hall Hev pre ev' post Heq Hlen Hnolog.
  destruct post as [|x post _] using rev_ind.
  - apply app_inj_tail in Heq as [-> ->]. auto.
  - rewrite app_comm_cons, app_assoc in Heq.
    apply app_inj_tail in Heq as [-> _]. eapply Hall; eauto.
Qed.

Lemma calls_succeed_log (h h' : History) lvl text args :
  calls_succeed p h h' -> calls_succeed p h (h' ++ [EvLog lvl text args])%list.
Proof. intros Hall. apply calls_succeed_snoc; [assumption|discriminate]. Qed.

Lemma calls_fail (h h' post : History) (ev : Event) (e : Exn) :
  length h <= length h' -> is_log ev = false -> throws p h' ev = Some e ->
  ~ calls_succeed p h (h' ++ ev :: post)%list.
Proof.
  intros Hlen Hnolog Hthrow Hall.
  specialize (Hall h' ev post eq_refl Hlen Hnolog). congruence.
Qed.

Lemma calls_fail_snoc (h h' post : History) (ev : Event) (e : Exn) :
  length h <= length h' -> is_log ev = false -> throws p h' ev = Some e ->
  ~ calls_succeed p h ((h' ++ [ev]) ++ post)%list.
Proof.
  intros. rewrite <- app_assoc. simpl. eapply calls_fail; eauto.
Qed.

End Running.

(** Runs the next platform call of a computation both ways. *)
Ltac step_call p :=
  match goal with
  | |- context [ask p ?ev ?f ?h] =>
      let E := fresh "E" in
      let e := fresh "e" in
      destruct (throws p h ev) as [e|] eqn:E;
      [rewrite (ask_throw p ev f h e E) | rewrite (ask_ok p ev f h E)];
      cbn [fst snd]
  end.

Ltac history_length := rewrite ?length_app; simpl; lia.

Ltac calls_ok :=
  repeat first
    [ apply calls_succeed_refl
    | apply calls_succeed_log
    | apply calls_succeed_snoc; [|intros _; assumption] ].

Ltac calls_failed p :=
  let H := fresh "H" in
  intros H; revert H;
  first [ eapply (calls_fail_snoc p); [history_length | reflexivity | eassumption] ].

(** ** The mail helper *)

Section SendMail.

Context (p : Platform).

Import EmailUtils.

(** [sendMail] always comes back with a boolean. *)
Lemma sendMail_returns (from : option string) (to : list string)
    (cc subject templatePath : option string)
    (contextObject : option (list (string * JsVal))) (h : History) :
  exists (sent : bool) (h' : History),
    sendMail p from to cc subject templatePath contextObject h = (Ok sent, h').
Proof.
  unfold sendMail, try_catch, call, mbind, M_bind.
  destruct (no_context contextObject); cbn [log];
    repeat (step_call p; [eexists false, _; reflexivity|]);
    eexists true, _; reflexivity.
Qed.

(** C9: [sendMail] never throws.  Whatever the platform does, it
    returns a boolean, [true] exactly when none of its calls to the
    template and to the mail transport threw; when one throws, the last
    thing it does is log the failure, and it returns [false]. *)
Theorem sendMail_never_throws (from : option string) (to : list string)
    (cc subject templatePath : option string)
    (contextObject : option (list (string * JsVal))) (h : History) :
  exists (sent : bool) (h' : History),
    sendMail p from to cc subject templatePath contextObject h = (Ok sent, h')
    /\ (sent = true <-> calls_succeed p h h')
    /\ (sent = false <->
        exists e, last h' = Some (EvLog LError "Failed to send template email: {0}"
                                    [JString (message e)])).
Proof.
  unfold sendMail, try_catch, call, mbind, M_bind.
  destruct (no_context contextObject); cbn [log];
    repeat (step_call p;
            [ eexists false, _; split; [reflexivity|]; split;
              [ split; [discriminate | intros H; exfalso; revert H; calls_failed p]
              | split; [intros _; eexists; apply last_snoc | reflexivity] ]
            | ]);
    (eexists true, _; split; [reflexivity|]; split;
     [ split; [intros _; calls_ok | reflexivity]
     | split; [discriminate | intros [e He]; rewrite last_snoc in He; discriminate] ]).
Qed.

End SendMail.

(** ** The comparison step when a fetch fails *)

Section FetchFailure.

Import CartridgePathComparisonReport.

(** On two arrays the call is the comparison of the two lists. *)
Lemma compareCartridges_call_lists (listA listB : list string) :
  compareCartridges_call (Cartridges listA) (Cartridges listB)
  = Ok (compareCartridges listA listB).
Proof. reflexivity. Qed.

(** A failed fetch is an object, hence truthy, and comparing it throws:
    the branch that skips the pair is never taken. *)
Lemma Failed_is_truthy (st : Status) : Fetched_truthy (Failed st) = true.
Proof. reflexivity. Qed.

Lemma compareCartridges_call_Failed_l (st : Status) (other : Fetched) :
  returns (compareCartridges_call (Failed st) other) = false.
Proof. reflexivity. Qed.

Lemma compareCartridges_call_Failed_r (l : list string) (st : Status) :
  returns (compareCartridges_call (Cartridges l) (Failed st)) = false.
Proof. reflexivity. Qed.

(** Whatever the platform, a pair with a failed fetch ends the loop with
    a throw. *)
Lemma compare_pairs_failed_first (p : Platform) (host1 host2 : string)
    (rest : list string) (siteId ocapiVersion : string) (token : JsVal)
    (elements : list ReportElement) (h h1 : History) (st : Status) :
  fetchCartridges p host1 siteId ocapiVersion token h = (Ok (Failed st), h1) ->
  exists e h',
    compare_pairs p (host1 :: host2 :: rest) siteId ocapiVersion token elements h
    = (Throw e, h').
Proof.
  intros H1. cbn [compare_pairs]. unfold mbind at 1, M_bind at 1. rewrite H1.
  unfold mbind at 1, M_bind at 1.
  destruct (fetchCartridges p host2 siteId ocapiVersion token h1) as [[c2|e] h2].
  - destruct c2; cbn; eauto.
  - eauto.
Qed.

Lemma compare_pairs_failed_second (p : Platform) (host1 host2 : string)
    (rest : list string) (siteId ocapiVersion : string) (token : JsVal)
    (elements : list ReportElement) (h h1 h2 : History) (c1 : Fetched) (st : Status) :
  fetchCartridges p host1 siteId ocapiVersion token h = (Ok c1, h1) ->
  fetchCartridges p host2 siteId ocapiVersion token h1 = (Ok (Failed st), h2) ->
  exists e h',
    compare_pairs p (host1 :: host2 :: rest) siteId ocapiVersion token elements h
    = (Throw e, h').
Proof.
  intros H1 H2. cbn [compare_pairs]. unfold mbind at 1, M_bind at 1. rewrite H1.
  unfold mbind at 1, M_bind at 1. rewrite H2.
  destruct c1; cbn; eauto.
Qed.

(** C1: four hosts, the first of which does not answer.  The pair
    [h1], [h2] is not skipped: after both are fetched the comparison
    throws, the step ends with that error, [h3] and [h4] are never
    fetched and no report is written. *)
Theorem failed_fetch_aborts_the_run :
  exists e h',
    execute (Scenario.platform Scenario.nothing_fails true [])
            (Some (Scenario.args Scenario.four_hosts false)) []
    = (Throw e, h')
    /\ fetched h' = ["https://h1/s/-/dw/data/v23_2/sites/RefArch";
                     "https://h2/s/-/dw/data/v23_2/sites/RefArch"]
    /\ written h' = []
    /\ In (EvLog LError "Failed to get cartridges from host {0} for site {1}"
                 [JString "h1"; JString "RefArch"]) h'.
Proof.
  eexists _, _. split; [vm_compute; reflexivity|].
  vm_compute. intuition.
Qed.

End FetchFailure.

(** ** The notification step when the mail cannot be sent *)

Section MailFailure.

Import SendSiteCartridgePathDifference.

Lemma archive_files_healthy (p : Platform) (files : list FileEntry)
    (formattedDate workingFolderPath : string) (h : History) :
  file_system_healthy p ->
  exists h',
    archive_files p files formattedDate
      (File_fullPath p workingFolderPath ++ File_SEPARATOR p ++ "archive") h
    = (Ok tt, h')
    /\ (forall ev, In ev h -> In ev h')
    /\ Forall (fun file =>
                 is_report_of formattedDate (name file) = true ->
                 In (EvRenameTo (fullPath file) (archive_target p workingFolderPath file)) h')
              files.
Proof.
  intros Hfs. revert h. induction files as [|file files IH]; intros h.
  - exists h. repeat split; auto.
  - cbn [archive_files]. unfold mbind at 1, M_bind at 1.
    destruct (is_report_of formattedDate (name file)) eqn:Hm.
    + unfold call. rewrite ask_ok by (apply Hfs; reflexivity).
      destruct (IH (h ++ [EvRenameTo (fullPath file)
                            (archive_target p workingFolderPath file)])%list)
        as (h' & Heq & Hgrow & Hall).
      exists h'. split; [exact Heq|]. split.
      * intros ev Hev. apply Hgrow, in_or_app. now left.
      * constructor; [|exact Hall].
        intros _. apply Hgrow, in_or_app. right. now left.
    + destruct (IH h) as (h' & Heq & Hgrow & Hall).
      exists h'. split; [exact Heq|]. split; [exact Hgrow|].
      constructor; [intros Hf; congruence|exact Hall].
Qed.

(** Whatever becomes of the mail, with recipients configured and a
    file system that works the step archives every report file of the
    day and returns OK: the boolean [sendMail] returns is not read. *)
Lemma send_and_archive_ignores_mail (p : Platform) (pdict : Pdict)
    (workingFolderPath : string) (files : list FileEntry) (formattedDate : string)
    (combinedResults : list JsVal) (anyDiff : bool) (subject : option string)
    (recipients : string) (h : History) :
  file_system_healthy p ->
  emailTo pdict = Some recipients ->
  exists h',
    send_and_archive p pdict workingFolderPath files formattedDate
      combinedResults anyDiff subject h
    = (Ok (Status1 OK), h')
    /\ Forall (fun file =>
                 is_report_of formattedDate (name file) = true ->
                 In (EvRenameTo (fullPath file) (archive_target p workingFolderPath file)) h')
              files.
Proof.
  intros Hfs Hto. unfold send_and_archive, try_catch. rewrite Hto.
  unfold mbind at 1, M_bind at 1. cbn [log].
  unfold mbind at 1, M_bind at 1. cbn [mret M_ret].
  unfold mbind at 1, M_bind at 1.
  match goal with
  | |- context [EmailUtils.sendMail p ?a ?b ?c ?d ?e ?f ?g] =>
      destruct (sendMail_returns p a b c d e f g) as (sent & h1 & ->)
  end.
  unfold mbind at 1, M_bind at 1.
  rewrite ask_ok by (apply Hfs; reflexivity).
  unfold mbind at 1, M_bind at 1.
  match goal with
  | |- context [if negb ?there then _ else _] => destruct (negb there)
  end.
  - unfold call. rewrite ask_ok by (apply Hfs; reflexivity).
    unfold mbind at 1, M_bind at 1.
    match goal with
    | |- context [archive_files p files formattedDate _ ?h0] =>
        destruct (archive_files_healthy p files formattedDate workingFolderPath h0 Hfs)
          as (h' & -> & _ & Hall)
    end.
    exists h'. split; [reflexivity|exact Hall].
  - cbn [mret M_ret]. unfold mbind at 1, M_bind at 1.
    match goal with
    | |- context [archive_files p files formattedDate _ ?h0] =>
        destruct (archive_files_healthy p files formattedDate workingFolderPath h0 Hfs)
          as (h' & -> & _ & Hall)
    end.
    exists h'. split; [reflexivity|exact Hall].
Qed.

(** C2: one report of the day in the working folder and a mail
    transport that throws on [send].  [sendMail] logs the failure and
    returns [false], which the step does not look at: the file is moved
    to the archive and the step returns OK. *)
Theorem mail_failure_still_archives :
  exists h',
    execute (Scenario.platform Scenario.mail_down false
               [(Scenario.file_A, Scenario.report_text)])
            Scenario.pdict []
    = (Ok (Status1 OK), h')
    /\ In EvMailSend h'
    /\ In (EvLog LError "Failed to send template email: {0}"
                 [JString "mail transport unavailable"]) h'
    /\ renamed h'
       = [("/IMPEX/src/cartridges/cartridge_difference_20261103_RefArch.json",
           "/IMPEX/src/cartridges/archive/cartridge_difference_20261103_RefArch.json")].
Proof.
  eexists. split; [vm_compute; reflexivity|].
  vm_compute. intuition.
Qed.

End MailFailure.

(** ** The comparison step: arguments and persistence *)

Section ComparisonStep.

Context (p : Platform).

Import CartridgePathComparisonReport.

Lemma safeParseArray_total (str : string) (h : History) :
  exists hosts extra,
    safeParseArray p str h = (Ok hosts, (h ++ extra)%list)
    /\ Forall (fun ev => is_log ev = true) extra.
Proof.
  unfold safeParseArray, try_catch, lift.
  destruct (JSON_parse_hosts p _) as [hosts|e].
  - exists hosts, []. rewrite app_nil_r. auto.
  - eexists [], [_]. split; [reflexivity|]. repeat constructor.
Qed.


(** Writing the report never throws: either every call to the file
    system went through, or the one that threw was caught and logged. *)
Lemma write_report_total (workingfolder : option string)
    (structuredDiff : StructuredDiff) (h : History) :
  exists h',
    write_report p workingfolder structuredDiff h = (Ok tt, h')
    /\ (calls_succeed p h h'
        \/ exists e, last h' = Some (EvLog LError "Error writing diff for site {0}: {1}"
                                       [JString (siteId structuredDiff);
                                        JString (message e)])).
Proof.
  unfold write_report, try_catch, call, new_Date, mbind, M_bind.
  step_call p; [eexists; split; [reflexivity|right; eexists; apply last_snoc]|].
  destruct (negb (exists_ p h _)); cbn [mret M_ret log];
    repeat (step_call p;
            [eexists; split; [reflexivity|right; eexists; apply last_snoc]|]);
    (eexists; split; [reflexivity|left; calls_ok]).
Qed.

(** C8: once the loop over the host pairs has come to its end, the
    step returns OK whatever happens while the report is written.  A
    throw from the directory or from the writer is caught: the last
    thing the step does then is log the error. *)
Theorem write_failure_is_not_fatal (a : Args) (h : History)
    (elements : list ReportElement) (h3 : History) :
  reaches_persistence p a h elements h3 ->
  exists h',
    execute p (Some a) h
    = (Ok (Status3 OK "OK" "Cartridge comparison completed."), h')
    /\ (calls_succeed p h3 h'
        \/ exists e, last h' = Some (EvLog LError "Error writing diff for site {0}: {1}"
                                       [JString (current_site_id p);
                                        JString (message e)])).
Proof.
  intros (Hhosts & Hver & Hon & hosts & h1 & tok & h2 & Hparse & Hlen & Heven
          & Htok & Htruthy & Hloop).
  unfold execute. rewrite Hhosts, Hver, Hon. cbn [negb orb].
  unfold mbind, M_bind. rewrite Hparse.
  assert (Nat.ltb (length hosts) 2 || negb (Nat.eqb (length hosts mod 2) 0) = false) as ->.
  { apply orb_false_iff. split.
    - apply Nat.ltb_ge, Hlen.
    - rewrite Heven. reflexivity. }
  rewrite Htok, Htruthy. cbn [negb log]. rewrite Hloop.
  destruct (write_report_total (workingfolder a)
              {| siteId := current_site_id p; elementsToReport := elements |} h3)
    as (h' & -> & Hlog).
  exists h'. split; [reflexivity|exact Hlog].
Qed.

End ComparisonStep.



Lemma write_failure_is_not_fatal_witness :
  exists h',
    CartridgePathComparisonReport.execute
      (Scenario.platform Scenario.disk_full false [])
      (Some (Scenario.args Scenario.four_hosts false)) []
    = (Ok (Status3 OK "OK" "Cartridge comparison completed."), h')
    /\ (calls_succeed (Scenario.platform Scenario.disk_full false [])
          [EvTokenCall "ocapi.auth";
           EvLog LInfo "Comparing cartridges for site: {0}" [JString "RefArch"];
           EvServiceCall {| token := JString "token"; method := "GET"; body := EmptyString;
                            URL := "https://h1/s/-/dw/data/v23_2/sites/RefArch" |};
           EvServiceCall {| token := JString "token"; method := "GET"; body := EmptyString;
                            URL := "https://h2/s/-/dw/data/v23_2/sites/RefArch" |};
           EvServiceCall {| token := JString "token"; method := "GET"; body := EmptyString;
                            URL := "https://h3/s/-/dw/data/v23_2/sites/RefArch" |};
           EvServiceCall {| token := JString "token"; method := "GET"; body := EmptyString;
                            URL := "https://h4/s/-/dw/data/v23_2/sites/RefArch" |}]
          h'
        \/ exists e, last h' = Some (EvLog LError "Error writing diff for site {0}: {1}"
                                       [JString "RefArch"; JString (message e)])).
Proof.
  apply (write_failure_is_not_fatal
           (Scenario.platform Scenario.disk_full false [])
           (Scenario.args Scenario.four_hosts false) []
           [{| hostInstance := "h1"; cartridgediff := ["c"] |};
            {| hostInstance := "h2"; cartridgediff := [] |};
            {| hostInstance := "h3"; cartridgediff := [] |};
            {| hostInstance := "h4"; cartridgediff := ["z"] |}]).
  unfold reaches_persistence.
  split; [reflexivity|]. split; [reflexivity|]. split; [reflexivity|].
  exists ["h1"; "h2"; "h3"; "h4"], [], (JString "token"), [EvTokenCall "ocapi.auth"].
  split; [vm_compute; reflexivity|].
  split; [simpl; lia|].
  split; [reflexivity|].
  split; [vm_compute; reflexivity|].
  split; [reflexivity|].
  vm_compute. reflexivity.
Defined.

(** ** The notification step: the aggregate of the day's reports *)

Section Collector.

Context (p : Platform).

Import SendSiteCartridgePathDifference.

Lemma lookup_set_field_ne (key key' : string) (v : JsVal)
    (fields : list (string * JsVal)) :
  key <> key' ->
  Js.lookup_field key (Js.set_field key' v fields) = Js.lookup_field key fields.
Proof.
  intros Hne. induction fields as [|[k old] fields IH]; simpl.
  - destruct (String.eqb_spec key' key); congruence.
  - destruct (String.eqb_spec k key') as [->|Hk]; simpl.
    + destruct (String.eqb_spec key' key); congruence.
    + now rewrite IH.
Qed.

(** Adding [maxLen] leaves [elementsToReport] as it was. *)
Lemma add_maxLen_keeps_elements (siteData annotated : JsVal) :
  add_maxLen p siteData = Ok annotated ->
  Js.get_prop annotated "elementsToReport" = Js.get_prop siteData "elementsToReport".
Proof.
  unfold add_maxLen. unfold mbind, Result_bind.
  destruct (len_at siteData 0); [|discriminate].
  destruct (len_at siteData 1); [|discriminate].
  destruct (Js.Math_max _ _ _); [|discriminate].
  destruct siteData; simpl; try discriminate; intros [= <-]; simpl.
  - reflexivity.
  - now rewrite lookup_set_field_ne.
Qed.

Lemma add_maxLen_keeps_diff (siteData annotated : JsVal) :
  add_maxLen p siteData = Ok annotated ->
  site_has_diff p annotated = site_has_diff p siteData.
Proof.
  intros H. unfold site_has_diff. now rewrite (add_maxLen_keeps_elements _ _ H).
Qed.

Lemma has_diff_element (element : JsVal) (diff : list JsVal) :
  diff_of element = Some diff ->
  has_diff p element = Ok (negb (Nat.eqb (length diff) 0)).
Proof.
  unfold diff_of. destruct element; try discriminate.
  destruct (Js.lookup_field "cartridgediff" fields) eqn:Hd; try discriminate.
  intros [= <-]. unfold has_diff. simpl. rewrite Hd. simpl.
  f_equal. destruct elems; reflexivity.
Qed.

Lemma some_has_diff (elements : list JsVal) :
  forallb is_element elements = true ->
  some (has_diff p) elements
  = Ok (existsb (fun diff => negb (Nat.eqb (length diff) 0)) (omap diff_of elements)).
Proof.
  induction elements as [|e elements IH]; simpl; [reflexivity|].
  intros [He Hall]%andb_true_iff. unfold is_element in He.
  destruct (diff_of e) as [diff|] eqn:Hd; [|discriminate].
  rewrite (has_diff_element _ _ Hd). simpl.
  destruct (negb (Nat.eqb (length diff) 0)); simpl; [reflexivity|auto].
Qed.

Lemma site_has_diff_report (report : JsVal) :
  is_site_report report = true ->
  site_has_diff p report
  = Ok (existsb (fun diff => negb (Nat.eqb (length diff) 0)) (diffs_of report)).
Proof.
  unfold is_site_report, diffs_of, elements_of.
  destruct report; try discriminate.
  destruct (Js.lookup_field "elementsToReport" fields) eqn:He; try discriminate.
  intros Hall. unfold site_has_diff. simpl. rewrite He. simpl.
  now apply some_has_diff.
Qed.

Lemma len_at_report (elements : list JsVal) (fields : list (string * JsVal)) (i : nat) :
  Js.lookup_field "elementsToReport" fields = JArray elements ->
  forallb is_element elements = true ->
  exists n, len_at (JObject fields) i = Ok (JNumber (Fin n)).
Proof.
  intros He Hall. unfold len_at. simpl. rewrite He. simpl.
  destruct (nth_in_or_default i elements JUndefined) as [Hin| ->].
  - rewrite forallb_forall in Hall. specialize (Hall _ Hin).
    unfold is_element, diff_of in Hall.
    destruct (nth i elements JUndefined); try discriminate.
    destruct (Js.lookup_field "cartridgediff" fields0) eqn:Hd; try discriminate.
    simpl. rewrite Hd. simpl. eauto.
  - simpl. eauto.
Qed.

Lemma add_maxLen_report (report : JsVal) :
  is_site_report report = true ->
  exists annotated,
    add_maxLen p report = Ok annotated
    /\ is_site_report annotated = true
    /\ diffs_of annotated = diffs_of report.
Proof.
  unfold is_site_report, diffs_of, elements_of.
  destruct report; try discriminate.
  destruct (Js.lookup_field "elementsToReport" fields) eqn:He; try discriminate.
  intros Hall.
  destruct (len_at_report _ _ 0 He Hall) as [n Hn].
  destruct (len_at_report _ _ 1 He Hall) as [m Hm].
  unfold add_maxLen. rewrite Hn, Hm. simpl.
  eexists. split; [reflexivity|].
  cbn [elements_of]. rewrite lookup_set_field_ne, He by discriminate. auto.
Qed.

Lemma forEach_add_maxLen_reports (reports : list JsVal) :
  Forall (fun report => is_site_report report = true) reports ->
  exists annotated,
    forEach (add_maxLen p) reports = Ok annotated
    /\ Forall (fun report => is_site_report report = true) annotated
    /\ concat (List.map diffs_of annotated) = concat (List.map diffs_of reports).
Proof.
  induction 1 as [|report reports Hr _ (annotated & Heq & Hall & Hd)]; simpl.
  - exists []. auto.
  - destruct (add_maxLen_report _ Hr) as (report' & -> & Hr' & Hd').
    simpl. rewrite Heq. simpl. eexists. split; [reflexivity|].
    split; [constructor; assumption|]. simpl. now rewrite Hd', Hd.
Qed.

Lemma hasDiffData_reports (reports : list JsVal) :
  Forall (fun report => is_site_report report = true) reports ->
  hasDiffData p reports
  = Ok (existsb (fun diff => negb (Nat.eqb (length diff) 0))
          (concat (List.map diffs_of reports))).
Proof.
  unfold hasDiffData.
  induction 1 as [|report reports Hr _ IH]; simpl; [reflexivity|].
  rewrite (site_has_diff_report _ Hr). simpl.
  rewrite existsb_app.
  destruct (existsb _ (diffs_of report)); simpl; [reflexivity|exact IH].
Qed.

(** C4: on reports of the day that have the shape of a site report,
    the annotation with [maxLen] goes through and [hasDiffData] is true
    exactly when one of the [cartridgediff] arrays, of any element of
    any report, is not empty; so it is false when they are all empty. *)
Theorem hasDiffData_iff_some_diff (reports : list JsVal) :
  Forall (fun report => is_site_report report = true) reports ->
  exists annotated anyDiff,
    forEach (add_maxLen p) reports = Ok annotated
    /\ hasDiffData p annotated = Ok anyDiff
    /\ (anyDiff = true <->
        exists diff, In diff (concat (List.map diffs_of reports)) /\ diff <> [])
    /\ (Forall (fun diff => diff = []) (concat (List.map diffs_of reports)) ->
        anyDiff = false).
Proof.
  intros Hall.
  destruct (forEach_add_maxLen_reports _ Hall) as (annotated & Heq & Hall' & Hd).
  exists annotated. eexists. split; [exact Heq|].
  split; [rewrite (hasDiffData_reports _ Hall'), Hd; reflexivity|].
  split.
  - rewrite existsb_exists. split.
    + intros (diff & Hin & Hne). exists diff. split; [assumption|].
      now destruct diff.
    + intros (diff & Hin & Hne). exists diff. split; [assumption|].
      now destruct diff.
  - intros Hempty. apply not_true_is_false. rewrite existsb_exists.
    intros (diff & Hin & Hne). rewrite List.Forall_forall in Hempty.
    now rewrite (Hempty _ Hin) in Hne.
Qed.

(** *** Values that are not site reports *)

Lemma add_maxLen_missing (v : JsVal) :
  elements_missing v = true -> returns (add_maxLen p v) = false.
Proof.
  unfold elements_missing, add_maxLen, len_at.
  destruct v; try reflexivity.
  simpl. destruct (Js.lookup_field "elementsToReport" fields); try discriminate;
    reflexivity.
Qed.

Lemma site_has_diff_no_array (v : JsVal) :
  elements_of v = None -> returns (site_has_diff p v) = false.
Proof.
  unfold elements_of, site_has_diff.
  destruct v; try reflexivity.
  simpl. destruct (Js.lookup_field "elementsToReport" fields); try discriminate;
    reflexivity.
Qed.

Lemma forEach_throws {A} (callback : A -> Result A) (xs : list A) (x : A) :
  In x xs -> returns (callback x) = false -> returns (forEach callback xs) = false.
Proof.
  induction xs as [|y xs IH]; simpl; [contradiction|].
  intros [->|Hin] Hx.
  - destruct (callback x); [discriminate|reflexivity].
  - destruct (callback y); [|reflexivity]. simpl.
    specialize (IH Hin Hx). destruct (forEach callback xs); [discriminate|reflexivity].
Qed.

Lemma some_after_forEach (reports annotated : list JsVal) :
  forEach (add_maxLen p) reports = Ok annotated ->
  some (site_has_diff p) annotated = some (site_has_diff p) reports.
Proof.
  revert annotated. induction reports as [|r reports IH]; simpl.
  - now intros ? [= <-].
  - intros annotated. destruct (add_maxLen p r) as [r'|] eqn:Hr; [|discriminate].
    simpl. destruct (forEach (add_maxLen p) reports) as [rest|]; [|discriminate].
    simpl. intros [= <-]. simpl.
    rewrite (add_maxLen_keeps_diff _ _ Hr), (IH rest eq_refl). reflexivity.
Qed.

(** [some] stops at the first element for which the callback does not
    return [false], with what the callback gives there. *)
Lemma some_stops_at_first {A} (callback : A -> Result bool) (xs : list A) :
  match some callback xs with
  | Ok false => Forall (fun x => callback x = Ok false) xs
  | stop =>
      exists before x after,
        xs = (before ++ x :: after)%list
        /\ Forall (fun y => callback y = Ok false) before
        /\ callback x = stop
  end.
Proof.
  induction xs as [|x xs IH]; simpl; [constructor|].
  destruct (callback x) as [[|]|e] eqn:Hx; simpl.
  - exists [], x, xs. auto.
  - destruct (some callback xs) as [[|]|e].
    + destruct IH as (before & y & after & -> & Hbefore & Hy).
      exists (x :: before), y, after. auto.
    + constructor; assumption.
    + destruct IH as (before & y & after & -> & Hbefore & Hy).
      exists (x :: before), y, after. auto.
  - exists [], x, xs. auto.
Qed.

(** An element on which the callback throws is not among those for
    which it returned [false], nor the one at which it returned
    [true]. *)
Lemma thrower_comes_after {A} (callback : A -> Result bool)
    (before after : list A) (x bad : A) :
  In bad (before ++ x :: after)%list ->
  returns (callback bad) = false ->
  Forall (fun y => callback y = Ok false) before ->
  callback x = Ok true ->
  In bad after.
Proof.
  intros Hin Hbad Hbefore Hx.
  apply in_app_or in Hin as [Hin|[->|Hin]].
  - rewrite List.Forall_forall in Hbefore.
    rewrite (Hbefore _ Hin) in Hbad. discriminate.
  - rewrite Hx in Hbad. discriminate.
  - exact Hin.
Qed.

(** The mail block has a [catch] for everything: it comes back with a
    status. *)
Lemma send_and_archive_returns (pdict : Pdict) (workingFolderPath : string)
    (files : list FileEntry) (formattedDate : string) (combinedResults : list JsVal)
    (anyDiff : bool) (subject : option string) (h : History) :
  exists status h',
    send_and_archive p pdict workingFolderPath files formattedDate
      combinedResults anyDiff subject h
    = (Ok status, h').
Proof.
  unfold send_and_archive, try_catch.
  match goal with
  | |- context [let (_, _) := ?body h in _] => destruct (body h) as [[status|e] h1]
  end.
  - eauto.
  - eexists _, _. reflexivity.
Qed.

(** Once the files are read, the step goes through the annotation and
    the aggregation before anything else, and from there to the mail
    block. *)
Lemma execute_after_reading (pdict : Pdict) (h : History)
    (parsed : list JsVal) (h4 : History) :
  reads p pdict h parsed h4 -> parsed <> [] ->
  exists files d,
    (forall e, forEach (add_maxLen p) parsed = Throw e ->
               execute p pdict h = (Throw e, h4))
    /\ (forall annotated e,
          forEach (add_maxLen p) parsed = Ok annotated ->
          hasDiffData p annotated = Throw e ->
          execute p pdict h = (Throw e, h4))
    /\ (forall annotated,
          forEach (add_maxLen p) parsed = Ok annotated ->
          hasDiffData p annotated = Ok true ->
          execute p pdict h
          = send_and_archive p pdict
              (Str.join (File_SEPARATOR p)
                 [File_IMPEX p; "src"; join_item (workingfolder pdict)])
              files d annotated true (emailSubject pdict) h4).
Proof.
  intros (h1 & h2 & files & h3 & Hex & Hdir & Hls & Hfiles & Hread) Hparsed.
  exists files, (formattedDate (now p h3)).
  enough (execute p pdict h
          = (lift (forEach (add_maxLen p) parsed)
             ≫= (fun combinedResults =>
                   lift (hasDiffData p combinedResults)
                   ≫= (fun anyDiff : bool =>
                         (if negb anyDiff
                          then log LInfo
                                 "No cartridge path differences found in audit data." []
                          else mret tt);;
                         send_and_archive p pdict
                           (Str.join (File_SEPARATOR p)
                              [File_IMPEX p; "src"; join_item (workingfolder pdict)])
                           files (formattedDate (now p h3)) combinedResults anyDiff
                           (if anyDiff then emailSubject pdict
                            else emailSubjectWithoutDiff pdict)))) h4)
    as ->.
  { split; [|split].
    - intros e He. now rewrite bind_lift, He.
    - intros annotated e Hann He. rewrite bind_lift, Hann. cbn beta iota.
      now rewrite bind_lift, He.
    - intros annotated Hann Hd. rewrite bind_lift, Hann. cbn beta iota.
      rewrite bind_lift, Hd. reflexivity. }
  unfold execute. unfold mbind at 1, M_bind at 1. cbn [log].
  unfold mbind at 1, M_bind at 1. rewrite Hex.
  unfold mbind at 1, M_bind at 1. rewrite Hdir. cbn [negb orb].
  unfold mbind at 1, M_bind at 1. rewrite Hls.
  destruct files as [|file files]; [contradiction|].
  unfold mbind at 1, M_bind at 1. cbn [new_Date].
  unfold mbind at 1, M_bind at 1. cbn [log].
  unfold mbind at 1, M_bind at 1. rewrite Hread.
  assert (Nat.eqb (length parsed) 0 = false) as ->
    by (destruct parsed; [contradiction|reflexivity]).
  reflexivity.
Qed.

(** C10, as the code has it: take a file of the day that parses to a
    value [bad] without an [elementsToReport] array.

    When the value has no such property at all (it is not an object, or
    the property is absent or [null]), the [maxLen] annotation raises an
    error that nothing catches: the step ends with it right after the
    files are read.

    When the property is there with something else than an array,
    one of two things happens.  Either the step ends with an uncaught
    error right after the files are read: the error of the [maxLen]
    annotation when some report makes it fail, and otherwise the error
    the aggregation meets at the first report for which the inner
    [some] does not return [false].  Or the annotation succeeds on every
    report and the first report for which the inner [some] does not
    return [false] has a difference and was read before [bad]: the
    aggregation stops there with [true], [bad] is not visited, and the
    step goes on to the mail block with the subject for differences and
    comes back with a status. *)
Theorem malformed_report_aborts (pdict : Pdict) (h : History)
    (parsed : list JsVal) (h4 : History) (bad : JsVal) :
  reads p pdict h parsed h4 ->
  In bad parsed ->
  elements_of bad = None ->
  (elements_missing bad = true ->
   exists e,
     forEach (add_maxLen p) parsed = Throw e
     /\ execute p pdict h = (Throw e, h4))
  /\ (elements_missing bad = false ->
      (exists e,
          execute p pdict h = (Throw e, h4)
          /\ (forEach (add_maxLen p) parsed = Throw e
              \/ exists annotated before culprit after,
                  forEach (add_maxLen p) parsed = Ok annotated
                  /\ hasDiffData p annotated = Throw e
                  /\ parsed = (before ++ culprit :: after)%list
                  /\ Forall (fun report => site_has_diff p report = Ok false) before
                  /\ site_has_diff p culprit = Throw e))
      \/ (exists annotated before earlier after,
             forEach (add_maxLen p) parsed = Ok annotated
             /\ hasDiffData p annotated = Ok true
             /\ parsed = (before ++ earlier :: after)%list
             /\ Forall (fun report => site_has_diff p report = Ok false) before
             /\ site_has_diff p earlier = Ok true
             /\ In bad after
             /\ (exists files d,
                    execute p pdict h
                    = send_and_archive p pdict
                        (Str.join (File_SEPARATOR p)
                           [File_IMPEX p; "src"; join_item (workingfolder pdict)])
                        files d annotated true (emailSubject pdict) h4)
             /\ exists status h', execute p pdict h = (Ok status, h'))).
Proof.
  intros Hreads Hin Hbad.
  assert (parsed <> []) as Hne by (intros ->; contradiction).
  destruct (execute_after_reading pdict h parsed h4 Hreads Hne)
    as (files & d & Hann & Hagg & Hgo).
  split.
  - intros Hmissing.
    pose proof (forEach_throws (add_maxLen p) parsed bad Hin
                  (add_maxLen_missing _ Hmissing)) as Hthrow.
    destruct (forEach (add_maxLen p) parsed) as [|e] eqn:He; [discriminate|].
    exists e. split; [reflexivity|]. now apply Hann.
  - intros _.
    destruct (forEach (add_maxLen p) parsed) as [annotated|e] eqn:He;
      [|left; exists e; split; [now apply Hann|now left]].
    pose proof (some_stops_at_first (site_has_diff p) parsed) as Hsome.
    rewrite <- (some_after_forEach _ _ He) in Hsome.
    fold (hasDiffData p annotated) in Hsome.
    destruct (hasDiffData p annotated) as [[|]|e] eqn:Hd.
    + right. destruct Hsome as (before & earlier & after & Hsplit & Hbefore & Hearlier).
      exists annotated, before, earlier, after.
      split; [reflexivity|]. split; [exact Hd|].
      split; [exact Hsplit|]. split; [exact Hbefore|]. split; [exact Hearlier|].
      split.
      { rewrite Hsplit in Hin.
        exact (thrower_comes_after _ _ _ _ _ Hin (site_has_diff_no_array _ Hbad)
                 Hbefore Hearlier). }
      split.
      { exists files, d. now apply Hgo. }
      rewrite (Hgo annotated eq_refl Hd).
      apply send_and_archive_returns.
    + exfalso. rewrite List.Forall_forall in Hsome.
      pose proof (site_has_diff_no_array _ Hbad) as Hthrows.
      rewrite (Hsome _ Hin) in Hthrows. discriminate.
    + left. exists e. split; [now apply (Hagg annotated)|].
      right. destruct Hsome as (before & culprit & after & Hsplit & Hbefore & Hculprit).
      exists annotated, before, culprit, after. auto.
Qed.

End Collector.

Lemma hasDiffData_iff_some_diff_witness :
  exists annotated anyDiff,
    SendSiteCartridgePathDifference.forEach
      (SendSiteCartridgePathDifference.add_maxLen
         (Scenario.platform Scenario.nothing_fails false []))
      [Scenario.report_value] = Ok annotated
    /\ SendSiteCartridgePathDifference.hasDiffData
         (Scenario.platform Scenario.nothing_fails false []) annotated = Ok anyDiff
    /\ (anyDiff = true <->
        exists diff, In diff (concat (List.map diffs_of [Scenario.report_value]))
                     /\ diff <> [])
    /\ (Forall (fun diff => diff = []) (concat (List.map diffs_of [Scenario.report_value])) ->
        anyDiff = false).
Proof.
  apply (hasDiffData_iff_some_diff
           (Scenario.platform Scenario.nothing_fails false []) [Scenario.report_value]).
  repeat constructor.
Defined.

(** Two report files of the day: a site report with a difference, then
    a file that holds an object with a number under [elementsToReport].
    The second value has no [elementsToReport] array, and yet the step
    sends its mail, archives both files and returns OK. *)
Lemma number_for_elements_goes_unnoticed :
  JSON_parse (Scenario.platform Scenario.nothing_fails false
                [(Scenario.file_A, Scenario.report_text);
                 (Scenario.file_B, Scenario.odd_text)]) Scenario.odd_text
  = Ok Scenario.odd_value
  /\ elements_of Scenario.odd_value = None
  /\ exists h',
      SendSiteCartridgePathDifference.execute
        (Scenario.platform Scenario.nothing_fails false
           [(Scenario.file_A, Scenario.report_text);
            (Scenario.file_B, Scenario.odd_text)])
        Scenario.pdict []
      = (Ok (Status1 OK), h')
      /\ In EvMailSend h'
      /\ length (renamed h') = 2.
Proof.
  split; [reflexivity|]. split; [reflexivity|].
  eexists. split; [vm_compute; reflexivity|].
  vm_compute. intuition.
Qed.

Lemma malformed_report_aborts_witness :
  (elements_missing Scenario.number_value = true ->
   exists e,
     SendSiteCartridgePathDifference.forEach (SendSiteCartridgePathDifference.add_maxLen (Scenario.platform Scenario.nothing_fails false
          [(Scenario.file_A, Scenario.report_text);
           (Scenario.file_B, Scenario.number_text)]))
       [Scenario.report_value; Scenario.number_value] = Throw e
     /\ SendSiteCartridgePathDifference.execute (Scenario.platform Scenario.nothing_fails false
          [(Scenario.file_A, Scenario.report_text);
           (Scenario.file_B, Scenario.number_text)]) Scenario.pdict [] = (Throw e, Scenario.two_files_read))
  /\ (elements_missing Scenario.number_value = false ->
      (exists e,
          SendSiteCartridgePathDifference.execute (Scenario.platform Scenario.nothing_fails false
          [(Scenario.file_A, Scenario.report_text);
           (Scenario.file_B, Scenario.number_text)]) Scenario.pdict [] = (Throw e, Scenario.two_files_read)
          /\ (SendSiteCartridgePathDifference.forEach (SendSiteCartridgePathDifference.add_maxLen (Scenario.platform Scenario.nothing_fails false
          [(Scenario.file_A, Scenario.report_text);
           (Scenario.file_B, Scenario.number_text)]))
                [Scenario.report_value; Scenario.number_value] = Throw e
              \/ exists annotated before culprit after,
                  SendSiteCartridgePathDifference.forEach (SendSiteCartridgePathDifference.add_maxLen (Scenario.platform Scenario.nothing_fails false
          [(Scenario.file_A, Scenario.report_text);
           (Scenario.file_B, Scenario.number_text)]))
                    [Scenario.report_value; Scenario.number_value] = Ok annotated
                  /\ SendSiteCartridgePathDifference.hasDiffData (Scenario.platform Scenario.nothing_fails false
          [(Scenario.file_A, Scenario.report_text);
           (Scenario.file_B, Scenario.number_text)]) annotated = Throw e
                  /\ [Scenario.report_value; Scenario.number_value]
                     = (before ++ culprit :: after)%list
                  /\ Forall (fun report => SendSiteCartridgePathDifference.site_has_diff (Scenario.platform Scenario.nothing_fails false
          [(Scenario.file_A, Scenario.report_text);
           (Scenario.file_B, Scenario.number_text)]) report = Ok false) before
                  /\ SendSiteCartridgePathDifference.site_has_diff (Scenario.platform Scenario.nothing_fails false
          [(Scenario.file_A, Scenario.report_text);
           (Scenario.file_B, Scenario.number_text)]) culprit = Throw e))
      \/ (exists annotated before earlier after,
             SendSiteCartridgePathDifference.forEach (SendSiteCartridgePathDifference.add_maxLen (Scenario.platform Scenario.nothing_fails false
          [(Scenario.file_A, Scenario.report_text);
           (Scenario.file_B, Scenario.number_text)]))
               [Scenario.report_value; Scenario.number_value] = Ok annotated
             /\ SendSiteCartridgePathDifference.hasDiffData (Scenario.platform Scenario.nothing_fails false
          [(Scenario.file_A, Scenario.report_text);
           (Scenario.file_B, Scenario.number_text)]) annotated = Ok true
             /\ [Scenario.report_value; Scenario.number_value]
                = (before ++ earlier :: after)%list
             /\ Forall (fun report => SendSiteCartridgePathDifference.site_has_diff (Scenario.platform Scenario.nothing_fails false
          [(Scenario.file_A, Scenario.report_text);
           (Scenario.file_B, Scenario.number_text)]) report = Ok false) before
             /\ SendSiteCartridgePathDifference.site_has_diff (Scenario.platform Scenario.nothing_fails false
          [(Scenario.file_A, Scenario.report_text);
           (Scenario.file_B, Scenario.number_text)]) earlier = Ok true
             /\ In Scenario.number_value after
             /\ (exists files d,
                    SendSiteCartridgePathDifference.execute (Scenario.platform Scenario.nothing_fails false
          [(Scenario.file_A, Scenario.report_text);
           (Scenario.file_B, Scenario.number_text)]) Scenario.pdict []
                    = SendSiteCartridgePathDifference.send_and_archive (Scenario.platform Scenario.nothing_fails false
          [(Scenario.file_A, Scenario.report_text);
           (Scenario.file_B, Scenario.number_text)]) Scenario.pdict
                        (Str.join (File_SEPARATOR (Scenario.platform Scenario.nothing_fails false
          [(Scenario.file_A, Scenario.report_text);
           (Scenario.file_B, Scenario.number_text)]))
                           [File_IMPEX (Scenario.platform Scenario.nothing_fails false
          [(Scenario.file_A, Scenario.report_text);
           (Scenario.file_B, Scenario.number_text)]); "src";
                            join_item (SendSiteCartridgePathDifference.workingfolder Scenario.pdict)])
                        files d annotated true (SendSiteCartridgePathDifference.emailSubject Scenario.pdict)
                        Scenario.two_files_read)
             /\ exists status h',
                 SendSiteCartridgePathDifference.execute (Scenario.platform Scenario.nothing_fails false
          [(Scenario.file_A, Scenario.report_text);
           (Scenario.file_B, Scenario.number_text)]) Scenario.pdict [] = (Ok status, h'))).
Proof.
  apply (malformed_report_aborts
           (Scenario.platform Scenario.nothing_fails false
              [(Scenario.file_A, Scenario.report_text);
               (Scenario.file_B, Scenario.number_text)])
           Scenario.pdict []
           [Scenario.report_value; Scenario.number_value]
           Scenario.two_files_read Scenario.number_value).
  - unfold reads. eexists _, _, _, _.
    split; [vm_compute; reflexivity|].
    split; [vm_compute; reflexivity|].
    split; [vm_compute; reflexivity|].
    split; [discriminate|].
    vm_compute. reflexivity.
  - simpl. auto.
  - reflexivity.
Defined.

(** * Further properties *)

(** ** The difference of two lists, seen as sets *)

Section CompareAsSets.

Import CartridgePathComparisonReport.

Lemma absent_filter_nil (l other : list string) :
  List.filter (fun x => negb (bool_decide (x ∈ other))) l = []
  <-> Forall (fun x => x ∈ other) l.
Proof.
  induction l as [|a l IH]; simpl.
  - split; [constructor|reflexivity].
  - destruct (bool_decide (a ∈ other)) eqn:Ha; simpl.
    + apply bool_decide_eq_true in Ha. rewrite IH. split.
      * now constructor.
      * now inversion 1.
    + apply bool_decide_eq_false in Ha. split; [discriminate|].
      inversion 1; contradiction.
Qed.

(** X1: the two differences are both empty exactly when the two lists
    hold the same strings; the order of the strings and how often each
    occurs make no difference.  So a list compared with itself has no
    difference. *)
Theorem compareCartridges_empty_iff_same_strings (listA listB : list string) :
  (onlyInA (compareCartridges listA listB) = []
   /\ onlyInB (compareCartridges listA listB) = []
   <-> forall x, x ∈ listA <-> x ∈ listB)
  /\ compareCartridges listA listA = {| onlyInA := []; onlyInB := [] |}.
Proof.
  split.
  - destruct (compareCartridges_filter listA listB) as [-> ->].
    rewrite !absent_filter_nil, !List.Forall_forall. split.
    + intros [HA HB] x. split; intros Hx.
      * apply HA, list_elem_of_In, Hx.
      * apply HB, list_elem_of_In, Hx.
    + intros H. split; intros x Hx%list_elem_of_In; now apply H.
  - destruct (compareCartridges_filter listA listA) as [HA HB].
    assert (List.filter (fun x => negb (bool_decide (x ∈ listA))) listA = []) as Hnil
      by (apply absent_filter_nil, List.Forall_forall; intros x Hx;
          now apply list_elem_of_In).
    rewrite Hnil in HA, HB.
    destruct (compareCartridges listA listA); simpl in *. now subst.
Qed.

(** X2: what is only in the first list depends on the second list
    through the strings it holds alone: another list with the same
    strings, in any order and with any repetition, gives the same
    [onlyInA]. *)
Theorem compareCartridges_other_list_as_set (listA listB listB' : list string) :
  (forall x, x ∈ listB <-> x ∈ listB') ->
  onlyInA (compareCartridges listA listB) = onlyInA (compareCartridges listA listB').
Proof.
  intros Hsame.
  destruct (compareCartridges_filter listA listB) as [-> _].
  destruct (compareCartridges_filter listA listB') as [-> _].
  apply List.filter_ext. intros x. f_equal. apply bool_decide_ext, Hsame.
Qed.

End CompareAsSets.

Lemma compareCartridges_other_list_as_set_witness :
  CartridgePathComparisonReport.onlyInA
    (CartridgePathComparisonReport.compareCartridges ["a"; "b"; "c"; "c"] ["a"; "b"])
  = CartridgePathComparisonReport.onlyInA
      (CartridgePathComparisonReport.compareCartridges ["a"; "b"; "c"; "c"] ["b"; "a"; "b"]).
Proof.
  apply (compareCartridges_other_list_as_set ["a"; "b"; "c"; "c"] ["a"; "b"] ["b"; "a"; "b"]).
  intros x. rewrite !list_elem_of_In. simpl. intuition.
Defined.

(** ** Cartridge names *)

Section CartridgeNames.

Import CartridgePathComparisonReport.

#[local] Arguments String.append : simpl nomatch.

Lemma has_char_app (c : ascii) (s t : string) :
  Str.has_char c (s ++ t) = Str.has_char c s || Str.has_char c t.
Proof.
  induction s as [|x s IH]; simpl; [reflexivity|].
  now rewrite IH, orb_assoc.
Qed.

Lemma trim_start_fixed (t : string) :
  no_space_at (Str.first_char t) = true -> Str.trim_start t = t.
Proof.
  destruct t as [|c t]; simpl; [reflexivity|].
  now intros ->%negb_true_iff.
Qed.

Lemma trim_end_fixed (t : string) :
  no_space_at (Str.last_char t) = true -> Str.trim_end t = t.
Proof.
  induction t as [|c t IH]; [reflexivity|].
  destruct t as [|d t].
  - simpl. now intros ->%negb_true_iff.
  - intros Hlast. change (Str.last_char (String c (String d t)))
      with (Str.last_char (String d t)) in Hlast.
    specialize (IH Hlast).
    change (Str.trim_end (String c (String d t)))
      with (match Str.trim_end (String d t) with
            | EmptyString => if Str.is_space c then EmptyString else String c EmptyString
            | kept => String c kept
            end).
    now rewrite IH.
Qed.

Lemma trim_name (t : string) : is_cartridge_name t = true -> Str.trim t = t.
Proof.
  unfold is_cartridge_name, Str.trim.
  intros [[[_ _]%andb_true_iff Hfirst]%andb_true_iff Hlast]%andb_true_iff.
  now rewrite trim_start_fixed, trim_end_fixed.
Qed.

Lemma split_without_colon (a : string) :
  Str.has_char ":" a = false -> Str.split ":" a = [a].
Proof.
  induction a as [|c a IH]; simpl; [reflexivity|].
  intros [Hc Ha]%orb_false_iff. rewrite Hc, (IH Ha). reflexivity.
Qed.

Lemma split_first_segment (a s : string) :
  Str.has_char ":" a = false ->
  Str.split ":" (a ++ String ":" s) = a :: Str.split ":" s.
Proof.
  induction a as [|c a IH]; simpl; [reflexivity|].
  intros [Hc Ha]%orb_false_iff. rewrite Hc, (IH Ha). reflexivity.
Qed.

Lemma split_join (names : list string) :
  names <> [] ->
  Forall (fun t => Str.has_char ":" t = false) names ->
  Str.split ":" (Str.join ":" names) = names.
Proof.
  induction names as [|a names IH]; [contradiction|].
  intros _ Hall. inversion Hall as [|? ? Ha Hrest]; subst.
  destruct names as [|b names].
  - simpl. now apply split_without_colon.
  - change (Str.join ":" (a :: b :: names))
      with (a ++ String ":" (Str.join ":" (b :: names))).
    rewrite split_first_segment by assumption.
    f_equal. now apply IH.
Qed.

Lemma trim_all_names (names : list string) :
  Forall (fun t => is_cartridge_name t = true) names ->
  List.filter Str.truthy (List.map Str.trim names) = names.
Proof.
  induction 1 as [|t names Ht _ IH]; [reflexivity|].
  cbn [List.map List.filter]. rewrite (trim_name _ Ht), IH.
  unfold is_cartridge_name in Ht.
  now apply andb_true_iff in Ht as [[[-> _]%andb_true_iff _]%andb_true_iff _].
Qed.

Lemma split_join_names (names : list string) :
  names <> [] ->
  Forall (fun t => is_cartridge_name t = true) names ->
  Str.split ":" (Str.join ":" names) = names.
Proof.
  intros Hne Hall. apply split_join; [assumption|].
  eapply List.Forall_impl; [|exact Hall]. intros t Ht.
  unfold is_cartridge_name in Ht.
  apply andb_true_iff in Ht as [[[_ Hc]%andb_true_iff _]%andb_true_iff _].
  now apply negb_true_iff.
Qed.

Lemma normalizeCartridges_names (cartridgeStr : string) :
  Forall (fun t => is_cartridge_name t = true) (normalizeCartridges cartridgeStr).
Proof.
  unfold normalizeCartridges. apply List.Forall_forall. intros t Ht.
  apply List.filter_In in Ht as [Ht Hne].
  apply List.in_map_iff in Ht as (seg & <- & Hseg).
  pose proof (split_no_sep cartridgeStr) as Hcolon.
  rewrite List.Forall_forall in Hcolon. specialize (Hcolon seg Hseg).
  destruct (trim_spec seg) as (before & after & Heq & _ & _ & Hfirst & Hlast).
  rewrite Heq, !has_char_app in Hcolon.
  apply orb_false_iff in Hcolon as [_ [Hcolon _]%orb_false_iff].
  unfold is_cartridge_name. now rewrite Hne, Hcolon, Hfirst, Hlast.
Qed.

(** X3: every name [normalizeCartridges] returns is a cartridge name:
    it is not empty, holds no colon, and neither starts nor ends with
    white space.  So a normalized path is stable: written back with
    colons and normalized again, it is the same list. *)
Theorem normalizeCartridges_yields_names (cartridgeStr : string) :
  Forall (fun t => is_cartridge_name t = true) (normalizeCartridges cartridgeStr)
  /\ normalizeCartridges (Str.join ":" (normalizeCartridges cartridgeStr))
     = normalizeCartridges cartridgeStr.
Proof.
  pose proof (normalizeCartridges_names cartridgeStr) as Hnames.
  split; [exact Hnames|].
  destruct (normalizeCartridges cartridgeStr) as [|a names] eqn:Hn; [reflexivity|].
  unfold normalizeCartridges at 1.
  rewrite split_join_names by (assumption || discriminate).
  now apply trim_all_names.
Qed.

(** X4: joining cartridge names with colons and normalizing the path
    gives the names back, in order and with their repetitions. *)
Theorem normalizeCartridges_of_joined_names (names : list string) :
  Forall (fun t => is_cartridge_name t = true) names ->
  normalizeCartridges (Str.join ":" names) = names.
Proof.
  intros Hall. destruct names as [|a names]; [reflexivity|].
  unfold normalizeCartridges.
  rewrite split_join_names by (assumption || discriminate).
  now apply trim_all_names.
Qed.

End CartridgeNames.

Lemma normalizeCartridges_of_joined_names_witness :
  CartridgePathComparisonReport.normalizeCartridges
    (Str.join ":" ["app_storefront"; "bm tools"; "app_storefront"])
  = ["app_storefront"; "bm tools"; "app_storefront"].
Proof.
  apply (normalizeCartridges_of_joined_names
           ["app_storefront"; "bm tools"; "app_storefront"]).
  repeat constructor.
Defined.

(** ** What a computation adds to the history *)

Section Emits.

Context (p : Platform) (P : Event -> Prop).

Lemma emits_mret {A} (a : A) : emits P (mret a : M A).
Proof. intros h. exists []. rewrite app_nil_r. auto. Qed.

Lemma emits_throw {A} (e : Exn) : emits P (throw e : M A).
Proof. intros h. exists []. rewrite app_nil_r. auto. Qed.

Lemma emits_lift {A} (r : Result A) : emits P (lift r).
Proof. intros h. exists []. rewrite app_nil_r. auto. Qed.

Lemma emits_new_Date : emits P (new_Date p).
Proof. intros h. exists []. rewrite app_nil_r. auto. Qed.

Lemma emits_log (lvl : Level) (text : string) (args : list JsVal) :
  P (EvLog lvl text args) -> emits P (log lvl text args).
Proof. intros HP h. exists [EvLog lvl text args]. auto. Qed.

Lemma emits_ask {A} (ev : Event) (answer : History -> A) :
  P ev -> emits P (ask p ev answer).
Proof.
  intros HP h. exists [ev]. unfold ask. destruct (throws p h ev); auto.
Qed.

Lemma emits_call (ev : Event) : P ev -> emits P (call p ev).
Proof. apply emits_ask. Qed.

Lemma emits_bind {A B} (m : M A) (k : A -> M B) :
  emits P m -> (forall a, emits P (k a)) -> emits P (m ≫= k).
Proof.
  intros Hm Hk h. destruct (Hm h) as (extra & Heq & Hall).
  unfold mbind, M_bind. destruct (m h) as [[a|e] h1]; simpl in Heq; subst h1.
  - destruct (Hk a (h ++ extra)%list) as (extra' & Heq' & Hall').
    exists (extra ++ extra')%list. rewrite Heq', app_assoc. split; [reflexivity|].
    apply Forall_app; auto.
  - exists extra. auto.
Qed.

Lemma emits_try_catch {A} (body : M A) (handler : Exn -> M A) :
  emits P body -> (forall e, emits P (handler e)) -> emits P (try_catch body handler).
Proof.
  intros Hm Hk h. destruct (Hm h) as (extra & Heq & Hall).
  unfold try_catch. destruct (body h) as [[a|e] h1]; simpl in Heq; subst h1.
  - exists extra. auto.
  - destruct (Hk e (h ++ extra)%list) as (extra' & Heq' & Hall').
    exists (extra ++ extra')%list. rewrite Heq', app_assoc. split; [reflexivity|].
    apply Forall_app; auto.
Qed.

End Emits.

Lemma emits_weaken {A} (P Q : Event -> Prop) (m : M A) :
  (forall ev, P ev -> Q ev) -> emits P m -> emits Q m.
Proof.
  intros HPQ Hm h. destruct (Hm h) as (extra & Heq & Hall).
  exists extra. split; [assumption|]. eapply List.Forall_impl; eauto.
Qed.

(** Breaks a goal [emits P m] down along the structure of [m]. *)
Ltac emits_step :=
  first
    [ apply emits_mret
    | apply emits_throw
    | apply emits_lift
    | apply emits_new_Date
    | apply emits_bind; [|intros ?]
    | apply emits_try_catch; [|intros ?]
    | apply emits_log
    | apply emits_call
    | apply emits_ask
    | match goal with
      | |- emits _ (if ?b then _ else _) => destruct b
      | |- emits _ (match ?x with _ => _ end) => destruct x
      end ].

(** ** The services *)

Section Services.

Context (p : Platform).

Import OCAPIServices CartridgePathComparisonReport.

Lemma replace_all_gone (c d : ascii) (s : string) :
  c <> d -> Str.has_char c (Str.replace_all c d s) = false.
Proof.
  intros Hne. induction s as [|x s IH]; simpl; [reflexivity|].
  rewrite IH, orb_false_r.
  destruct (Ascii.eqb_spec x c) as [->|Hx].
  - apply Ascii.eqb_neq. congruence.
  - now apply Ascii.eqb_neq.
Qed.

Lemma replace_all_again (c d : ascii) (s : string) :
  c <> d -> Str.replace_all c d (Str.replace_all c d s) = Str.replace_all c d s.
Proof.
  intros Hne. induction s as [|x s IH]; simpl; [reflexivity|].
  rewrite IH. f_equal.
  destruct (Ascii.eqb_spec x c) as [->|Hx].
  - destruct (Ascii.eqb_spec d c); congruence.
  - destruct (Ascii.eqb_spec x c); congruence.
Qed.

(** X5: [safeParseArray] never throws: it returns what [JSON.parse]
    makes of the text, and the empty array after one warning when the
    text does not parse.  The parser never sees a single quote, so the
    single-quoted and the double-quoted spelling of a list give the same
    result. *)
Theorem safeParseArray_outcome (str : string) (h : History) :
  (exists hosts h',
      safeParseArray p str h = (Ok hosts, h')
      /\ match JSON_parse_hosts p (Str.replace_all "'" Str.dquote str) with
         | Ok parsed => hosts = parsed /\ h' = h
         | Throw e =>
             hosts = []
             /\ h' = (h ++ [EvLog LWarn "Failed to parse hostInstances: {0}"
                              [JString (message e)]])%list
         end)
  /\ Str.has_char "'" (Str.replace_all "'" Str.dquote str) = false
  /\ safeParseArray p (Str.replace_all "'" Str.dquote str) h = safeParseArray p str h.
Proof.
  split; [|split].
  - unfold safeParseArray, try_catch, lift.
    destruct (JSON_parse_hosts p _) as [parsed|e]; eexists _, _; split;
      try reflexivity; auto.
  - apply replace_all_gone. discriminate.
  - unfold safeParseArray. rewrite replace_all_again by discriminate. reflexivity.
Qed.

(** X6: a [hostInstances] text that does not parse is not reported as
    such: with the required arguments there and the step enabled, the
    step logs one warning and returns the ERROR status of a host list of
    uneven length, having asked nothing else of the platform. *)
Theorem execute_unparsable_hosts (a : Args) (h : History) (e : Exn) :
  opt_truthy (hostInstances a) = true ->
  opt_truthy (ocapiVersion a) = true ->
  disableStep a = false ->
  JSON_parse_hosts p (Str.replace_all "'" Str.dquote (join_item (hostInstances a)))
  = Throw e ->
  execute p (Some a) h
  = (Ok (Status3 ERROR "ERROR"
           "hostInstances must contain even number of hosts to form pairs."),
     (h ++ [EvLog LWarn "Failed to parse hostInstances: {0}" [JString (message e)]])%list).
Proof.
  intros Hhosts Hver Hon Hparse.
  unfold execute. rewrite Hhosts, Hver, Hon. cbn [negb orb].
  unfold mbind at 1, M_bind at 1.
  unfold safeParseArray, try_catch, lift. rewrite Hparse. reflexivity.
Qed.

(** X7: [getToken] never throws.  Without a service name it logs and
    returns [null] without calling any service; when the call throws it
    logs and returns [null]; otherwise it returns the object of the
    result, after that one call. *)
Theorem getToken_outcome (serviceName : option string) (h : History) :
  exists tok h',
    getToken p serviceName h = (Ok tok, h')
    /\ if opt_truthy serviceName
       then match throws p h (EvTokenCall (join_item serviceName)) with
            | None =>
                tok = token_object p h (join_item serviceName)
                /\ h' = (h ++ [EvTokenCall (join_item serviceName)])%list
            | Some e =>
                tok = JNull
                /\ h' = (h ++ [EvTokenCall (join_item serviceName);
                               EvLog LError ("[OCAPIServices.js] - Function getToken Error - "
                                             ++ message e) []])%list
            end
       else tok = JNull
            /\ h' = (h ++ [EvLog LError
                             "[OCAPIServices.js] - Function getToken Error - Missing required parameter: serviceName"
                             []])%list.
Proof.
  unfold getToken, try_catch.
  destruct (opt_truthy serviceName); cbn [negb].
  - unfold ask. destruct (throws p h _) as [e|]; cbn.
    + eexists _, _. split; [reflexivity|]. split; [reflexivity|].
      now rewrite <- app_assoc.
    + eexists _, _. split; [reflexivity|]. auto.
  - cbn. eexists _, _. split; [reflexivity|]. auto.
Qed.

(** X8: [callDataOcapi] never throws and calls the service once.  It
    returns [null] exactly when that call throws, and the result of the
    call otherwise. *)
Theorem callDataOcapi_outcome (params : Param) (h : History) :
  exists response h',
    callDataOcapi p params h = (Ok response, h')
    /\ fetched h' = (fetched h ++ [URL params])%list
    /\ (response = None <-> throws p h (EvServiceCall params) <> None)
    /\ (throws p h (EvServiceCall params) = None ->
        response = Some (service_result p h params)).
Proof.
  unfold callDataOcapi, try_catch, mbind, M_bind, ask, fetched.
  destruct (throws p h (EvServiceCall params)) as [e|] eqn:He; cbn.
  - eexists _, _. split; [reflexivity|]. rewrite !omap_app. cbn.
    rewrite app_nil_r. repeat split; try discriminate; congruence.
  - destruct (negb (String.eqb (svc_status (service_result p h params)) "OK")); cbn;
      eexists _, _; (split; [reflexivity|]); rewrite !omap_app; cbn;
      rewrite ?app_nil_r; repeat split; try discriminate; congruence.
Qed.

End Services.

(** ** Fetching the cartridges of a host *)

Section Fetching.

Context (p : Platform).

Import OCAPIServices CartridgePathComparisonReport.

Lemma fetchCartridges_unfold (host siteId ocapiVersion : string) (token : JsVal)
    (h : History) :
  fetchCartridges p host siteId ocapiVersion token h
  = match throws p h (EvServiceCall (data_request host siteId ocapiVersion token)) with
    | Some e =>
        (Throw (TypeError "Cannot read property ok of null"),
         (h ++ [EvServiceCall (data_request host siteId ocapiVersion token);
                EvLog LError ("[OCAPIServices.js]Error while calling data OCAPI: "
                              ++ Exn_toString e) []])%list)
    | None =>
        let response := service_result p h (data_request host siteId ocapiVersion token) in
        let h1 := ((h ++ [EvServiceCall (data_request host siteId ocapiVersion token)])
                   ++ (if String.eqb (svc_status response) "OK" then []
                       else [EvLog LInfo "Server responded with code:{0}"
                               [object response]]))%list in
        let failed :=
          (Ok (Failed (Status3 ERROR "ERROR" "Failed to fetch cartridges.")),
           (h1 ++ [EvLog LError "Failed to get cartridges from host {0} for site {1}"
                     [JString host; JString siteId]])%list) in
        if ok response && Js.truthy (object response)
        then match Js.get_prop (object response) "cartridges" with
             | Ok (JString s) =>
                 if Str.truthy s then (Ok (Cartridges (normalizeCartridges s)), h1)
                 else failed
             | Ok cartridges =>
                 if Js.truthy cartridges
                 then (Throw (TypeError "split is not a function"), h1)
                 else failed
             | Throw e => (Throw e, h1)
             end
        else failed
    end.
Proof.
  unfold fetchCartridges, callDataOcapi, try_catch, mbind, M_bind, ask.
  fold (data_request host siteId ocapiVersion token).
  destruct (throws p h (EvServiceCall (data_request host siteId ocapiVersion token)))
    as [e|]; cbn.
  { now rewrite <- app_assoc. }
  set (response := service_result p h (data_request host siteId ocapiVersion token)).
  assert (forall (A : Type) (x y : A) (b : bool),
             (if negb b then x else y) = (if b then y else x)) as Hnegb
    by (now intros A x y []).
  destruct (String.eqb (svc_status response) "OK"); cbn; rewrite ?app_nil_r;
    (destruct (ok response); cbn; [|reflexivity]);
    (destruct (Js.truthy (object response)); cbn; [|reflexivity]);
    unfold lift;
    (destruct (Js.get_prop (object response) "cartridges") as [c|e]; cbn;
     [|reflexivity]);
    destruct c as [| |b|n|s|l|f]; cbn; try reflexivity;
    try (destruct b; reflexivity);
    try (destruct n as [|z]; cbn; [reflexivity|destruct (Z.eqb z 0); reflexivity]);
    try (destruct (Str.truthy s); reflexivity).
Qed.

(** What the [catch] of [callDataOcapi] appends to its message: the
    name and the message of the error, or the one of them that is not
    empty. *)
Lemma Exn_toString_cases (n m : string) :
  Exn_toString (Thrown n m)
  = if Str.truthy n
    then if Str.truthy m then (n ++ ": " ++ m)%string else n
    else m.
Proof. unfold Exn_toString. now destruct (Str.truthy n), (Str.truthy m). Qed.

Lemma Exn_toString_without_message :
  Exn_toString (Thrown "Error" EmptyString) = "Error".
Proof. reflexivity. Qed.

(** X9: when the call to the remote service throws, [callDataOcapi]
    catches and logs it, and [fetchCartridges] then throws a TypeError
    on the [null] it gets back: the failure does not come out as a
    failed fetch. *)
Theorem fetchCartridges_service_throws (host siteId ocapiVersion : string)
    (token : JsVal) (h : History) (e : Exn) :
  throws p h (EvServiceCall (data_request host siteId ocapiVersion token)) = Some e ->
  exists e' h',
    fetchCartridges p host siteId ocapiVersion token h = (Throw e', h')
    /\ In (EvLog LError ("[OCAPIServices.js]Error while calling data OCAPI: "
                         ++ Exn_toString e) []) h'
    /\ forall lvl args,
        ~ In (EvLog lvl "Failed to get cartridges from host {0} for site {1}" args)
             (drop (length h) h').
Proof.
  intros He. rewrite fetchCartridges_unfold, He.
  eexists _, _. split; [reflexivity|]. split.
  - apply in_or_app. right. simpl. auto.
  - intros lvl args. rewrite drop_app_length. simpl.
    intros [H|[H|[]]]; discriminate.
Qed.

(** X10: what [fetchCartridges] returns.  A list comes from a
    response that is ok and whose object has a non-empty string under
    [cartridges]: it is that string normalized, so a list of cartridge
    names.  The failure status comes from a response that is not ok, has
    no object, or has nothing under [cartridges], and this is logged as
    an error last. *)
Theorem fetchCartridges_result (host siteId ocapiVersion : string) (token : JsVal)
    (h h' : History) (result : Fetched) :
  fetchCartridges p host siteId ocapiVersion token h = (Ok result, h') ->
  let response := service_result p h (data_request host siteId ocapiVersion token) in
  match result with
  | Cartridges names =>
      ok response = true
      /\ (exists s, Js.get_prop (object response) "cartridges" = Ok (JString s)
                    /\ Str.truthy s = true
                    /\ names = normalizeCartridges s)
      /\ Forall (fun t => is_cartridge_name t = true) names
  | Failed st =>
      st = Status3 ERROR "ERROR" "Failed to fetch cartridges."
      /\ (ok response = false
          \/ Js.truthy (object response) = false
          \/ exists cartridges,
              Js.get_prop (object response) "cartridges" = Ok cartridges
              /\ Js.truthy cartridges = false)
      /\ last h' = Some (EvLog LError "Failed to get cartridges from host {0} for site {1}"
                           [JString host; JString siteId])
  end.
Proof.
  rewrite fetchCartridges_unfold.
  destruct (throws p h _); [discriminate|]. cbn zeta.
  set (response := service_result p h (data_request host siteId ocapiVersion token)).
  assert (forall h1 : History,
             last (h1 ++ [EvLog LError "Failed to get cartridges from host {0} for site {1}"
                            [JString host; JString siteId]])%list
             = Some (EvLog LError "Failed to get cartridges from host {0} for site {1}"
                       [JString host; JString siteId])) as Hlast
    by (intros; apply last_snoc).
  destruct (ok response) eqn:Hok; cbn [andb];
    [|intros [= <- <-]; split; [reflexivity|]; split; [auto|apply Hlast]].
  destruct (Js.truthy (object response)) eqn:Hobj;
    [|intros [= <- <-]; split; [reflexivity|]; split; [auto|apply Hlast]].
  destruct (Js.get_prop (object response) "cartridges") as [c|e'] eqn:Hc;
    [|discriminate].
  destruct c as [| |b|n|s|l|f].
  - intros [= <- <-]. split; [reflexivity|]. split; [|apply Hlast].
    right. right. eexists. split; reflexivity.
  - intros [= <- <-]. split; [reflexivity|]. split; [|apply Hlast].
    right. right. eexists. split; reflexivity.
  - destruct (Js.truthy (JBool b)) eqn:Ht; [discriminate|].
    intros [= <- <-]. split; [reflexivity|]. split; [|apply Hlast].
    right. right. eexists. split; [reflexivity|exact Ht].
  - destruct (Js.truthy (JNumber n)) eqn:Ht; [discriminate|].
    intros [= <- <-]. split; [reflexivity|]. split; [|apply Hlast].
    right. right. eexists. split; [reflexivity|exact Ht].
  - destruct (Str.truthy s) eqn:Hs.
    + intros [= <- <-]. split; [reflexivity|]. split; [eauto|].
      apply normalizeCartridges_names.
    + intros [= <- <-]. split; [reflexivity|]. split; [|apply Hlast].
      right. right. eexists. split; [reflexivity|exact Hs].
  - discriminate.
  - discriminate.
Qed.

End Fetching.

(** ** The loop over the host pairs *)

Section PairLoop.

Context (p : Platform).

Import OCAPIServices CartridgePathComparisonReport.

Lemma list_pair_ind {A} (P : list A -> Prop) :
  P [] -> (forall x, P [x]) -> (forall x y l, P l -> P (x :: y :: l)) ->
  forall l, P l.
Proof.
  intros Hnil Hone Hstep. fix IH 1.
  intros [|x [|y l]]; [exact Hnil|apply Hone|apply Hstep, IH].
Qed.

Lemma even_length_step (n : nat) : S (S n) mod 2 = n mod 2.
Proof.
  replace (S (S n)) with (n + 1 * 2) by lia. apply Nat.Div0.mod_add.
Qed.

(** Whatever comes of it, a fetch asks the service once. *)
Lemma fetchCartridges_fetched (host siteId ocapiVersion : string) (token : JsVal)
    (h : History) :
  fetched (snd (fetchCartridges p host siteId ocapiVersion token h))
  = (fetched h ++ [URL (data_request host siteId ocapiVersion token)])%list.
Proof.
  rewrite fetchCartridges_unfold. unfold fetched.
  destruct (throws p h _); cbn [snd].
  - rewrite omap_app. reflexivity.
  - cbn zeta.
    assert (forall extra : History,
               Forall (fun ev => is_log ev = true) extra ->
               omap (fun ev => match ev with
                               | EvServiceCall prm => Some (URL prm)
                               | _ => None
                               end) extra = []) as Hlogs.
    { induction 1 as [|ev extra Hev _ IH]; [reflexivity|].
      destruct ev; try discriminate. exact IH. }
    repeat match goal with
           | |- context [if ?b then _ else _] => destruct b
           | |- context [match ?x with _ => _ end] => destruct x
           end; cbn [snd];
      rewrite ?omap_app, ?app_nil_r; cbn [omap];
      rewrite ?app_nil_r, <- ?app_assoc; reflexivity.
Qed.

Lemma compareCartridges_call_ok (c1 c2 : Fetched) (diff : DiffResult) :
  compareCartridges_call c1 c2 = Ok diff ->
  exists listA listB,
    c1 = Cartridges listA /\ c2 = Cartridges listB
    /\ diff = compareCartridges listA listB.
Proof.
  destruct c1 as [listA|st1], c2 as [listB|st2]; try discriminate.
  intros [= <-]. eauto.
Qed.

Lemma compareCartridges_no_common (listA listB : list string) :
  Forall (fun x => ~ In x (onlyInB (compareCartridges listA listB)))
         (onlyInA (compareCartridges listA listB)).
Proof.
  destruct (compareCartridges_filter listA listB) as [-> ->].
  pose proof (absent_filter_Forall listA listB) as Habsent.
  eapply List.Forall_impl; [|exact Habsent].
  intros x Hx [Hin _]%List.filter_In.
  rewrite List.Forall_forall in Hx. now apply (Hx x Hin).
Qed.

Lemma compare_pairs_invariant (siteId ocapiVersion : string) (token : JsVal)
    (hosts : list string) :
  forall (elements result : list ReportElement) (h h' : History),
    length hosts mod 2 = 0 ->
    compare_pairs p hosts siteId ocapiVersion token elements h = (Ok result, h') ->
    exists added,
      result = (elements ++ added)%list
      /\ List.map hostInstance added = hosts
      /\ pairs_disjoint added
      /\ fetched h'
         = (fetched h
            ++ List.map (fun host => URL (data_request host siteId ocapiVersion token))
                 hosts)%list.
Proof.
  induction hosts as [|host|host1 host2 hosts IH] using list_pair_ind;
    intros elements result h h' Heven Hrun.
  - injection Hrun as <- <-. exists []. rewrite !app_nil_r. simpl. auto.
  - discriminate.
  - cbn [length] in Heven. rewrite even_length_step in Heven.
    cbn [compare_pairs] in Hrun. unfold mbind at 1, M_bind at 1 in Hrun.
    pose proof (fetchCartridges_fetched host1 siteId ocapiVersion token h) as Hf1.
    destruct (fetchCartridges p host1 siteId ocapiVersion token h) as [[c1|e1] h1];
      [|discriminate].
    unfold mbind at 1, M_bind at 1 in Hrun.
    pose proof (fetchCartridges_fetched host2 siteId ocapiVersion token h1) as Hf2.
    destruct (fetchCartridges p host2 siteId ocapiVersion token h1) as [[c2|e2] h2];
      [|discriminate].
    cbn [snd] in Hf1, Hf2.
    unfold mbind at 1, M_bind at 1 in Hrun.
    assert (Fetched_truthy c1 && Fetched_truthy c2 = true) as Htruthy
      by (now destruct c1, c2).
    rewrite Htruthy in Hrun.
    rewrite bind_lift in Hrun.
    destruct (compareCartridges_call c1 c2) as [diff|e] eqn:Hdiff; [|discriminate].
    apply compareCartridges_call_ok in Hdiff as (listA & listB & -> & -> & ->).
    cbn [mret M_ret] in Hrun.
    destruct (IH _ _ _ _ Heven Hrun) as (added & -> & Hhosts & Hdisjoint & Hfetched).
    eexists (_ :: _ :: added). split; [now rewrite <- !app_assoc|].
    split; [simpl; now rewrite Hhosts|].
    split; [split; [apply compareCartridges_no_common|exact Hdisjoint]|].
    rewrite Hfetched, Hf2, Hf1, <- !app_assoc. reflexivity.
Qed.

(** X11: when the loop over an even number of hosts comes to its end,
    the report has one entry for each host, in the order of the hosts;
    the two entries of a pair have no cartridge in common; and the
    service was asked exactly once for each host, in that order, at the
    address of the site on that host. *)
Theorem compare_pairs_completed (siteId ocapiVersion : string) (token : JsVal)
    (hosts : list string) (elements : list ReportElement) (h h' : History) :
  length hosts mod 2 = 0 ->
  compare_pairs p hosts siteId ocapiVersion token [] h = (Ok elements, h') ->
  List.map hostInstance elements = hosts
  /\ pairs_disjoint elements
  /\ fetched h'
     = (fetched h
        ++ List.map (fun host => ("https://" ++ host ++ "/s/-/dw/data/" ++ ocapiVersion
                                  ++ "/sites/" ++ siteId)%string) hosts)%list.
Proof.
  intros Heven Hrun.
  destruct (compare_pairs_invariant siteId ocapiVersion token hosts [] elements h h'
              Heven Hrun) as (added & -> & Hhosts & Hdisjoint & Hfetched).
  auto.
Qed.

End PairLoop.

Section PairLoopEvents.

Context (p : Platform).

Import OCAPIServices CartridgePathComparisonReport.

Lemma fetchCartridges_emits (hosts : list string) (host siteId ocapiVersion : string)
    (token : JsVal) :
  In host hosts ->
  emits (loop_event hosts siteId ocapiVersion token)
        (fetchCartridges p host siteId ocapiVersion token).
Proof.
  intros Hin. unfold fetchCartridges, callDataOcapi.
  fold (data_request host siteId ocapiVersion token).
  repeat emits_step;
    try (left; split; [reflexivity|intros [args H]; discriminate]).
  right. eauto.
Qed.

Lemma compare_pairs_emits (all : list string) (siteId ocapiVersion : string)
    (token : JsVal) (hosts : list string) :
  forall elements,
    (forall host, In host hosts -> In host all) ->
    emits (loop_event all siteId ocapiVersion token)
          (compare_pairs p hosts siteId ocapiVersion token elements).
Proof.
  induction hosts as [|host|host1 host2 hosts IH] using list_pair_ind;
    intros elements Hsub; try apply emits_mret.
  cbn [compare_pairs].
  apply emits_bind; [apply fetchCartridges_emits, Hsub; simpl; auto|intros c1].
  apply emits_bind; [apply fetchCartridges_emits, Hsub; simpl; auto|intros c2].
  apply emits_bind.
  - assert (Fetched_truthy c1 && Fetched_truthy c2 = true) as ->
      by (now destruct c1, c2).
    repeat emits_step.
  - intros elements'. apply IH. intros host Hhost. apply Hsub. simpl. auto.
Qed.

(** X12: whether the loop comes to its end or throws, all it asks of
    the platform is a GET request, with the token, to hosts of the list,
    and log entries; and it never logs that a host pair is skipped. *)
Theorem compare_pairs_never_skips (siteId ocapiVersion : string) (token : JsVal)
    (hosts : list string) (elements : list ReportElement) :
  emits (fun ev =>
           (is_log ev = true /\ ~ is_skip_warning ev)
           \/ exists host,
               In host hosts
               /\ ev = EvServiceCall
                         {| token := token; method := "GET"; body := EmptyString;
                            URL := "https://" ++ host ++ "/s/-/dw/data/" ++ ocapiVersion
                                   ++ "/sites/" ++ siteId |})
        (compare_pairs p hosts siteId ocapiVersion token elements).
Proof.
  apply (emits_weaken (loop_event hosts siteId ocapiVersion token)).
  - intros ev [Hlog|(host & Hin & ->)]; [left; exact Hlog|right; eauto].
  - apply compare_pairs_emits. auto.
Qed.

End PairLoopEvents.

(** ** The comparison step without a token *)

Section TokenFailure.

Context (p : Platform).

Import OCAPIServices CartridgePathComparisonReport.

Lemma getToken_emits (serviceName : option string) :
  emits (fun ev => is_log ev = true \/ ev = EvTokenCall (join_item serviceName))
        (getToken p serviceName).
Proof.
  unfold getToken. repeat emits_step; auto.
Qed.

Lemma fetched_logs_and_tokens (h extra : History) :
  Forall (fun ev => is_log ev = true \/ exists n, ev = EvTokenCall n) extra ->
  fetched (h ++ extra)%list = fetched h /\ written (h ++ extra)%list = written h.
Proof.
  intros Hall. unfold fetched, written. rewrite !omap_app.
  enough (omap (fun ev => match ev with
                          | EvServiceCall prm => Some (URL prm)
                          | _ => None
                          end) extra = []
          /\ omap (fun ev => match ev with
                             | EvWrite _ content => Some content
                             | _ => None
                             end) extra = []) as [-> ->]
    by (now rewrite !app_nil_r).
  induction Hall as [|ev extra Hev _ [IH1 IH2]]; [auto|].
  destruct Hev as [Hlog|[n ->]]; [destruct ev; try discriminate|]; auto.
Qed.

(** X13: when [getToken] gives nothing (no service name, a call that
    throws, or a result without an object), the step logs it and returns
    the ERROR status of a failed token; no host was fetched and no report
    written. *)
Theorem execute_without_token (a : Args) (h : History) (hosts : list string)
    (tok : JsVal) (h2 : History) :
  asks_token p a h hosts tok h2 ->
  Js.truthy tok = false ->
  execute p (Some a) h
  = (Ok (Status3 ERROR "ERROR" "OCAPI token failed."),
     (h2 ++ [EvLog LError "Failed to fetch OCAPI token" []])%list)
  /\ fetched (h2 ++ [EvLog LError "Failed to fetch OCAPI token" []])%list = fetched h
  /\ written (h2 ++ [EvLog LError "Failed to fetch OCAPI token" []])%list = written h.
Proof.
  intros (Hhosts & Hver & Hon & h1 & Hparse & Hlen & Heven & Htok) Hfalsy.
  split.
  - unfold execute. rewrite Hhosts, Hver, Hon. cbn [negb orb].
    unfold mbind at 1, M_bind at 1. rewrite Hparse.
    assert (Nat.ltb (length hosts) 2 || negb (Nat.eqb (length hosts mod 2) 0) = false)
      as ->.
    { apply orb_false_iff. split; [apply Nat.ltb_ge, Hlen|now rewrite Heven]. }
    unfold mbind at 1, M_bind at 1. rewrite Htok, Hfalsy. reflexivity.
  - destruct (safeParseArray_total p (join_item (hostInstances a)) h)
      as (hosts' & extra1 & Heq1 & Hlogs1).
    rewrite Hparse in Heq1. injection Heq1 as _ ->.
    destruct (getToken_emits (serviceName a) (h ++ extra1)%list)
      as (extra2 & Heq2 & Hlogs2).
    rewrite Htok in Heq2. cbn [snd] in Heq2. subst h2.
    rewrite <- !app_assoc. apply fetched_logs_and_tokens.
    apply List.Forall_app. split.
    + eapply List.Forall_impl; [|exact Hlogs1]. auto.
    + apply List.Forall_app. split.
      * eapply List.Forall_impl; [|exact Hlogs2]. intros ev [H|H]; eauto.
      * constructor; [left; reflexivity|constructor].
Qed.

End TokenFailure.

(** ** The report file and its name *)

Section ReportFile.

Context (p : Platform).

Import CartridgePathComparisonReport SendSiteCartridgePathDifference.

#[local] Arguments String.append : simpl nomatch.

Lemma prefix_append (a b : string) : String.prefix a (a ++ b) = true.
Proof.
  induction a as [|c a IH]; simpl; [now destruct b|].
  destruct (ascii_dec c c); [exact IH|contradiction].
Qed.

Lemma append_empty (a : string) : a ++ EmptyString = a.
Proof. induction a as [|c a IH]; simpl; [reflexivity|now rewrite IH]. Qed.

Lemma append_assoc (a b c : string) : (a ++ b) ++ c = a ++ b ++ c.
Proof. induction a as [|x a IH]; simpl; [reflexivity|now rewrite IH]. Qed.

Lemma rev_append (a b : string) : Str.rev (a ++ b) = Str.rev b ++ Str.rev a.
Proof.
  induction a as [|c a IH]; simpl.
  - now rewrite append_empty.
  - now rewrite IH, append_assoc.
Qed.

Lemma endsWith_append (a b : string) : Str.endsWith (a ++ b) b = true.
Proof. unfold Str.endsWith. rewrite rev_append. apply prefix_append. Qed.

Lemma prefix_same_length (a b c : string) :
  String.length a = String.length b ->
  String.prefix a (b ++ c) = true -> a = b.
Proof.
  revert b. induction a as [|x a IH]; intros [|y b]; simpl; try discriminate.
  - reflexivity.
  - intros [= Hlen]. destruct (ascii_dec x y) as [->|]; [|discriminate].
    intros H. f_equal. now apply IH.
Qed.

Lemma report_file_name_matches (d : Date) (siteId : string) :
  is_report_of (formattedDate d) (report_file_name d siteId) = true.
Proof.
  unfold is_report_of, report_file_name, Str.startsWith.
  apply andb_true_iff. split.
  - rewrite <- append_assoc. apply prefix_append.
  - rewrite <- !append_assoc. apply endsWith_append.
Qed.

(** X14: the file the comparison step writes for a day bears a name
    the notification step takes for a report of that day, whatever the
    site.  And among date stamps of the same length, it takes the file
    for a report of no other day. *)
Theorem report_file_name_is_report (d d' : Date) (siteId : string) :
  is_report_of (formattedDate d) (report_file_name d siteId) = true
  /\ (String.length (formattedDate d') = String.length (formattedDate d) ->
      is_report_of (formattedDate d') (report_file_name d siteId) = true ->
      formattedDate d' = formattedDate d).
Proof.
  split; [apply report_file_name_matches|].
  unfold is_report_of, report_file_name, Str.startsWith.
  intros Hlen [Hprefix _]%andb_true_iff.
  set (tail := "_" ++ siteId ++ ".json") in *.
  change (String.prefix (formattedDate d') (formattedDate d ++ tail) = true) in Hprefix.
  exact (prefix_same_length _ _ tail Hlen Hprefix).
Qed.

Lemma written_to_skip (h extra : History) :
  Forall (fun ev => match ev with EvWrite _ _ => False | _ => True end) extra ->
  written_to (h ++ extra)%list = written_to h.
Proof.
  intros Hall. unfold written_to. rewrite omap_app.
  enough (omap (fun ev => match ev with
                          | EvWrite path content => Some (path, content)
                          | _ => None
                          end) extra = []) as -> by apply app_nil_r.
  induction Hall as [|ev extra Hev _ IH]; [reflexivity|].
  destruct ev; try contradiction; exact IH.
Qed.

(** X15: on a file system that works, the comparison step writes its
    report once, whole, under the working folder, in the file named
    after the day and the site, which is a name the notification step
    takes for a report of that day. *)
Theorem write_report_writes_once (workingfolder : option string)
    (structuredDiff : StructuredDiff) (h : History) :
  file_system_healthy p ->
  exists h' d,
    write_report p workingfolder structuredDiff h = (Ok tt, h')
    /\ written_to h'
       = (written_to h
          ++ [((Str.join (File_SEPARATOR p) [File_IMPEX p; "src"; join_item workingfolder]
                ++ File_SEPARATOR p ++ report_file_name d (siteId structuredDiff))%string,
               structuredDiff)])%list
    /\ is_report_of (formattedDate d) (report_file_name d (siteId structuredDiff)) = true.
Proof.
  intros Hfs. unfold write_report, try_catch, call, new_Date, mbind, M_bind.
  rewrite ask_ok by (apply Hfs; reflexivity).
  destruct (negb (exists_ p h _)); cbn [mret M_ret].
  - repeat (rewrite ask_ok by (apply Hfs; reflexivity)). cbn [log].
    eexists _, _. split; [reflexivity|]. split.
    + rewrite <- !app_assoc. cbn [app]. unfold written_to at 1.
      rewrite omap_app. cbn [omap]. reflexivity.
    + apply report_file_name_matches.
  - repeat (rewrite ask_ok by (apply Hfs; reflexivity)). cbn [log].
    eexists _, _. split; [reflexivity|]. split.
    + rewrite <- !app_assoc. cbn [app]. unfold written_to at 1.
      rewrite omap_app. cbn [omap]. reflexivity.
    + apply report_file_name_matches.
Qed.

End ReportFile.

(** ** Reading and archiving the files of the day *)

Section DayFiles.

Context (p : Platform).

Import SendSiteCartridgePathDifference.

Lemma reads_of_app (h extra : History) :
  reads_of (h ++ extra)%list = (reads_of h ++ reads_of extra)%list.
Proof. unfold reads_of. apply omap_app. Qed.

Lemma renamed_app (h extra : History) :
  renamed (h ++ extra)%list = (renamed h ++ renamed extra)%list.
Proof. unfold renamed. apply omap_app. Qed.

(** The paths read are those of the files of the day, in the order of
    the listing. *)
Lemma read_reports_unfold (file : FileEntry) (files : list FileEntry)
    (formattedDate : string) (combinedResults : list JsVal) (h : History) :
  file_system_healthy p ->
  read_reports p (file :: files) formattedDate combinedResults h
  = if is_report_of formattedDate (name file)
    then
      let h1 := (h ++ [EvLog LDebug ("Processing file: " ++ name file) []])%list in
      let content := String.concat EmptyString (readLines p h1 (fullPath file)) in
      match JSON_parse p content with
      | Ok data =>
          read_reports p files formattedDate (combinedResults ++ [data])%list
            (h1 ++ [EvReadLines (fullPath file);
                    EvLog LDebug ("Parsed JSON from file: " ++ name file) []])%list
      | Throw e =>
          read_reports p files formattedDate combinedResults
            (h1 ++ [EvReadLines (fullPath file);
                    EvLog LError ("Failed to parse JSON content from file: "
                                  ++ name file) [];
                    EvLog LError ("Error: " ++ message e) [];
                    EvLog LError ("Content snippet: " ++ String.substring 0 200 content) []])%list
      end
    else
      read_reports p files formattedDate combinedResults
        (h ++ [EvLog LDebug ("Skipping file (pattern mismatch): " ++ name file) []])%list.
Proof.
  intros Hfs. cbn [read_reports].
  destruct (is_report_of formattedDate (name file)).
  - unfold mbind, M_bind, mret, M_ret, log, try_catch, lift.
    rewrite ask_ok by (apply Hfs; reflexivity). cbn zeta.
    destruct (JSON_parse p _) as [data|e]; rewrite <- ?app_assoc; reflexivity.
  - reflexivity.
Qed.

(** The paths read are those of the files of the day, in the order of
    the listing. *)
Lemma read_reports_reads (files : list FileEntry) (formattedDate : string) :
  file_system_healthy p ->
  forall (combinedResults : list JsVal) (h : History),
    reads_of (snd (read_reports p files formattedDate combinedResults h))
    = (reads_of h
       ++ List.map fullPath
            (List.filter (fun file => is_report_of formattedDate (name file)) files))%list.
Proof.
  intros Hfs. induction files as [|file files IH]; intros combinedResults h.
  - simpl. now rewrite app_nil_r.
  - rewrite read_reports_unfold by assumption. cbn [List.filter].
    destruct (is_report_of formattedDate (name file)); cbn zeta.
    + destruct (JSON_parse p _) as [data|e];
        rewrite IH, !reads_of_app; cbn [reads_of omap List.map];
        rewrite ?app_nil_r, <- ?app_assoc; reflexivity.
    + rewrite IH, reads_of_app. cbn [reads_of omap]. now rewrite app_nil_r.
Qed.

(** X16: on a file system that works, reading the files of the day
    never throws, whatever the files hold: the values already collected
    are kept in front, every value added is what [JSON.parse] made of a
    text, there are no more of them than files of the day, and the files
    read are exactly the files of the day, in the order of the
    listing. *)
Theorem read_reports_of_the_day (files : list FileEntry) (formattedDate : string)
    (combinedResults : list JsVal) (h : History) :
  file_system_healthy p ->
  exists added h',
    read_reports p files formattedDate combinedResults h
    = (Ok (combinedResults ++ added)%list, h')
    /\ Forall (fun data => exists text, JSON_parse p text = Ok data) added
    /\ length added
       <= length (List.filter (fun file => is_report_of formattedDate (name file)) files)
    /\ reads_of h'
       = (reads_of h
          ++ List.map fullPath
               (List.filter (fun file => is_report_of formattedDate (name file)) files))%list.
Proof.
  intros Hfs.
  pose proof (read_reports_reads files formattedDate Hfs combinedResults h) as Hreads.
  enough (exists added h',
             read_reports p files formattedDate combinedResults h
             = (Ok (combinedResults ++ added)%list, h')
             /\ Forall (fun data => exists text, JSON_parse p text = Ok data) added
             /\ length added
                <= length (List.filter (fun file => is_report_of formattedDate (name file))
                             files))
    as (added & h' & Heq & Hparsed & Hlen).
  { exists added, h'. rewrite Heq in Hreads. auto. }
  clear Hreads. revert combinedResults h.
  induction files as [|file files IH]; intros combinedResults h.
  - exists [], h. rewrite app_nil_r. simpl. auto.
  - rewrite read_reports_unfold by assumption. cbn [List.filter].
    destruct (is_report_of formattedDate (name file)); cbn zeta.
    + destruct (JSON_parse p _) as [data|e] eqn:Hparse.
      * match goal with
        | |- context [read_reports p files formattedDate ?acc ?h0] =>
            destruct (IH acc h0) as (added & h' & -> & Hparsed & Hlen)
        end.
        exists (data :: added), h'. rewrite <- app_assoc. split; [reflexivity|].
        split; [constructor; eauto|]. simpl. lia.
      * match goal with
        | |- context [read_reports p files formattedDate ?acc ?h0] =>
            destruct (IH acc h0) as (added & h' & -> & Hparsed & Hlen)
        end.
        exists added, h'. split; [reflexivity|]. split; [assumption|]. simpl. lia.
    + match goal with
      | |- context [read_reports p files formattedDate ?acc ?h0] =>
          destruct (IH acc h0) as (added & h' & -> & Hparsed & Hlen)
      end.
      exists added, h'. auto.
Qed.

(** X17: on a file system that works, archiving moves exactly the
    files of the day, each into the archive folder under its own name,
    in the order of the listing; these are the very files that reading
    the day's reports reads, whether or not they parsed. *)
Theorem archive_files_of_the_day (files : list FileEntry)
    (formattedDate workingFolderPath : string) (combinedResults : list JsVal)
    (h hr : History) :
  file_system_healthy p ->
  exists h',
    archive_files p files formattedDate
      (File_fullPath p workingFolderPath ++ File_SEPARATOR p ++ "archive") h
    = (Ok tt, h')
    /\ renamed h'
       = (renamed h
          ++ List.map (fun file => (fullPath file, archive_target p workingFolderPath file))
               (List.filter (fun file => is_report_of formattedDate (name file)) files))%list
    /\ reads_of (snd (read_reports p files formattedDate combinedResults hr))
       = (reads_of hr
          ++ List.map fst
               (List.map (fun file => (fullPath file, archive_target p workingFolderPath file))
                  (List.filter (fun file => is_report_of formattedDate (name file))
                     files)))%list.
Proof.
  intros Hfs.
  enough (exists h',
             archive_files p files formattedDate
               (File_fullPath p workingFolderPath ++ File_SEPARATOR p ++ "archive") h
             = (Ok tt, h')
             /\ renamed h'
                = (renamed h
                   ++ List.map (fun file =>
                                  (fullPath file, archive_target p workingFolderPath file))
                        (List.filter (fun file => is_report_of formattedDate (name file))
                           files))%list)
    as (h' & Heq & Hrenamed).
  { exists h'. split; [assumption|]. split; [assumption|].
    rewrite (read_reports_reads files formattedDate Hfs), List.map_map.
    reflexivity. }
  revert h. induction files as [|file files IH]; intros h.
  - exists h. simpl. now rewrite app_nil_r.
  - cbn [archive_files List.filter]. unfold mbind at 1, M_bind at 1.
    destruct (is_report_of formattedDate (name file)).
    + unfold call. rewrite ask_ok by (apply Hfs; reflexivity).
      match goal with
      | |- context [archive_files p files formattedDate _ ?h0] =>
          destruct (IH h0) as (h' & -> & Hrenamed)
      end.
      exists h'. split; [reflexivity|].
      rewrite Hrenamed, renamed_app. cbn [renamed omap List.map].
      now rewrite <- app_assoc.
    + cbn [mret M_ret].
      destruct (IH h) as (h' & -> & Hrenamed).
      exists h'. auto.
Qed.

End DayFiles.

(** ** The end of the notification step *)

Section Notifying.

Context (p : Platform).

Import SendSiteCartridgePathDifference.

Lemma bind_ok_inv {A B} (m : M A) (k : A -> M B) (h h' : History) (b : B) :
  (m ≫= k) h = (Ok b, h') ->
  exists a h1, m h = (Ok a, h1) /\ k a h1 = (Ok b, h').
Proof.
  unfold mbind, M_bind. destruct (m h) as [[a|e] h1]; [eauto|discriminate].
Qed.

(** X18: once the reports are aggregated the step cannot throw: it
    returns OK or ERROR.  Without recipients it returns ERROR having
    only logged: no mail is prepared and nothing is archived.  And on a
    file system that works, missing recipients are the only way to ERROR:
    what becomes of the mail plays no part in the status. *)
Theorem send_and_archive_status (pdict : Pdict) (workingFolderPath : string)
    (files : list FileEntry) (formattedDate : string) (combinedResults : list JsVal)
    (anyDiff : bool) (subject : option string) (h : History) :
  exists st h',
    send_and_archive p pdict workingFolderPath files formattedDate
      combinedResults anyDiff subject h
    = (Ok st, h')
    /\ (st = Status1 OK \/ st = Status1 ERROR)
    /\ (emailTo pdict = None ->
        st = Status1 ERROR
        /\ h' = (h ++ [EvLog LInfo "Sending cartridge comparison report via email" [];
                       EvLog LError
                         "Failed to send audit email: Cannot call method split of undefined"
                         []])%list)
    /\ (file_system_healthy p -> (st = Status1 ERROR <-> emailTo pdict = None)).
Proof.
  destruct (emailTo pdict) as [recipients|] eqn:Hto.
  - destruct (send_and_archive p pdict workingFolderPath files formattedDate
                combinedResults anyDiff subject h) as [r h'] eqn:Hrun.
    assert (r = Ok (Status1 OK) \/ r = Ok (Status1 ERROR)) as Hst.
    { unfold send_and_archive, try_catch in Hrun.
      match type of Hrun with
      | (let (_, _) := ?body h in _) = _ => destruct (body h) as [[st|e] h1] eqn:Hbody
      end.
      - left. injection Hrun as <- <-. f_equal.
        repeat (apply bind_ok_inv in Hbody as (? & ? & _ & Hbody)).
        now injection Hbody as <- _.
      - right. cbn in Hrun. now injection Hrun as <- _. }
    assert (exists st, r = Ok st /\ (st = Status1 OK \/ st = Status1 ERROR))
      as (st & -> & Hcases) by (destruct Hst as [->| ->]; eauto).
    exists st, h'. split; [reflexivity|]. split; [exact Hcases|].
    split; [discriminate|].
    intros Hfs.
    destruct (send_and_archive_ignores_mail p pdict workingFolderPath files
                formattedDate combinedResults anyDiff subject recipients h Hfs Hto)
      as (h'' & Heq & _).
    rewrite Hrun in Heq. injection Heq as -> _.
    split; discriminate.
  - eexists _, _. split.
    + unfold send_and_archive, try_catch. rewrite Hto. reflexivity.
    + split; [auto|]. split.
      * intros _. split; [reflexivity|]. now rewrite <- app_assoc.
      * intros _. split; reflexivity.
Qed.

(** X19: when none of the files of the day gave a report (there is
    none, or none of them parses), the step logs it and returns OK right
    after reading: no mail is prepared and no file is moved, so the
    files stay in the working folder. *)
Theorem execute_without_reports (pdict : Pdict) (h h4 : History) :
  reads p pdict h [] h4 ->
  execute p pdict h
  = (Ok (Status1 OK),
     (h4 ++ [EvLog LInfo "No valid cartridge diff JSON data found to process." []])%list).
Proof.
  intros (h1 & h2 & files & h3 & Hex & Hdir & Hls & Hfiles & Hread).
  unfold execute. unfold mbind at 1, M_bind at 1. cbn [log].
  unfold mbind at 1, M_bind at 1. rewrite Hex.
  unfold mbind at 1, M_bind at 1. rewrite Hdir. cbn [negb orb].
  unfold mbind at 1, M_bind at 1. rewrite Hls.
  destruct files as [|file files]; [contradiction|].
  unfold mbind at 1, M_bind at 1. cbn [new_Date].
  unfold mbind at 1, M_bind at 1. cbn [log].
  unfold mbind at 1, M_bind at 1. rewrite Hread.
  reflexivity.
Qed.

End Notifying.

(** ** What the mail helper sends *)

Section PreparedMail.

Context (p : Platform).

Import EmailUtils.

(** X20: [sendMail] calls [send] only on a mail it has prepared in
    full.  Whenever [send] is among its calls, these are, in order: the
    template, its rendering (without context when there is none or it is
    empty, after a warning), the recipients, the sender, the copy, the
    subject, the rendered text as content, [send], and one last log
    entry; [send] is the last call to the platform. *)
Theorem sendMail_sends_a_prepared_mail (from : option string) (to : list string)
    (cc subject templatePath : option string)
    (contextObject : option (list (string * JsVal))) (h : History) :
  ~ In EvMailSend
       (drop (length h)
          (snd (sendMail p from to cc subject templatePath contextObject h)))
  \/ exists warning final,
      drop (length h) (snd (sendMail p from to cc subject templatePath contextObject h))
      = ([EvTemplate templatePath] ++ warning
         ++ [EvRender templatePath
               (if no_context contextObject then None else contextObject);
             EvMailAddTo to; EvMailSetFrom from; EvMailAddCc cc;
             EvMailSetSubject subject;
             EvMailSetContent
               (render_text p (h ++ [EvTemplate templatePath] ++ warning)%list templatePath
                  (if no_context contextObject then None else contextObject));
             EvMailSend; final])%list
      /\ Forall (fun ev => is_log ev = true) warning
      /\ is_log final = true.
Proof.
  unfold sendMail, try_catch, call, mbind, M_bind.
  destruct contextObject as [[|field fields]|]; cbn [no_context length Nat.eqb log];
    do 7 (step_call p; cbn beta iota;
          [ left; unfold mret, M_ret; cbn [snd]; rewrite <- ?app_assoc; cbn [app];
            rewrite drop_app_length; intros Hin; simpl in Hin;
            repeat (destruct Hin as [Hin|Hin]; [discriminate|]); exact Hin
          | ]);
    step_call p; cbn beta iota;
    right; unfold mret, M_ret; cbn [snd]; rewrite <- ?app_assoc; cbn [app];
    rewrite drop_app_length;
    first
      [ exists [EvLog LWarn "No context data provided for email template: {0}"
                  [JString_opt templatePath]];
        eexists; split; [reflexivity|]; split; [repeat constructor|reflexivity]
      | exists []; eexists; split; [reflexivity|]; split; [constructor|reflexivity] ].
Qed.

End PreparedMail.

(** ** The annotation of a report *)

Section Annotation.

Context (p : Platform).

Import SendSiteCartridgePathDifference.

Lemma lookup_set_field (key key' : string) (v : JsVal)
    (fields : list (string * JsVal)) :
  Js.lookup_field key (Js.set_field key' v fields)
  = if String.eqb key' key then v else Js.lookup_field key fields.
Proof.
  induction fields as [|[k old] fields IH]; simpl.
  - reflexivity.
  - destruct (String.eqb_spec k key') as [->|Hk]; simpl.
    + now destruct (String.eqb key' key).
    + rewrite IH. destruct (String.eqb_spec k key) as [->|Hkey]; [|reflexivity].
      destruct (String.eqb_spec key' key); congruence.
Qed.

Lemma element_length_at (elements : list JsVal) :
  forallb is_element elements = true ->
  forall i,
    (let element := nth i elements JUndefined in
     if Js.truthy element
     then diff ← Js.get_prop element "cartridgediff";
          if Js.truthy diff then Js.get_length diff else Ok (JNumber (Fin 0))
     else Ok (JNumber (Fin 0)))
    = Ok (JNumber (Fin (Z.of_nat (nth i (List.map (@length JsVal)
                                            (omap diff_of elements)) 0)))).
Proof.
  induction elements as [|e elements IH]; intros Hall i.
  - now destruct i.
  - cbn [forallb] in Hall. apply andb_true_iff in Hall as [He Hall].
    unfold is_element in He. destruct (diff_of e) as [diff|] eqn:Hd; [|discriminate].
    cbn [omap list_omap]. rewrite Hd. destruct i as [|i].
    + unfold diff_of in Hd. destruct e; try discriminate.
      destruct (Js.lookup_field "cartridgediff" fields) eqn:Hf; try discriminate.
      injection Hd as <-. simpl. rewrite Hf. reflexivity.
    + exact (IH Hall i).
Qed.

(** X21: on a site report the annotation adds [maxLen], the larger of
    the lengths of the [cartridgediff] arrays of the first two elements
    (0 standing for a missing element), and changes no other property:
    the elements from the third on play no part. *)
Theorem add_maxLen_of_first_two (report : JsVal) :
  is_site_report report = true ->
  exists fields annotated,
    report = JObject fields
    /\ add_maxLen p report = Ok (JObject annotated)
    /\ Js.lookup_field "maxLen" annotated
       = JNumber (Fin (Z.of_nat (Nat.max (diff_length_at report 0)
                                         (diff_length_at report 1))))
    /\ forall key, key <> "maxLen" ->
                   Js.lookup_field key annotated = Js.lookup_field key fields.
Proof.
  unfold is_site_report, diff_length_at, diffs_of, elements_of.
  destruct report as [| | | | | |fields]; try discriminate.
  destruct (Js.lookup_field "elementsToReport" fields) as [| | | | |elements|] eqn:He;
    try discriminate.
  intros Hall.
  assert (forall i,
             len_at (JObject fields) i
             = Ok (JNumber (Fin (Z.of_nat (nth i (List.map (@length JsVal)
                                                     (omap diff_of elements)) 0)))))
    as Hlen.
  { intros i. unfold len_at.
    change (Js.get_prop (JObject fields) "elementsToReport")
      with (Ok (Js.lookup_field "elementsToReport" fields)).
    rewrite He. exact (element_length_at elements Hall i). }
  exists fields. eexists. split; [reflexivity|]. split.
  - unfold add_maxLen. rewrite !Hlen. reflexivity.
  - split.
    + rewrite lookup_set_field. cbn [String.eqb]. simpl.
      now rewrite Nat2Z.inj_max.
    + intros key Hkey. rewrite lookup_set_field.
      destruct (String.eqb_spec "maxLen" key); congruence.
Qed.

End Annotation.

(** ** The date stamp *)

Section DateStamp.

#[local] Arguments String.append : simpl nomatch.

Lemma two_digits_spec (n : nat) :
  n < 100 ->
  Str.slice_last 2 ("0" ++ Str.of_nat n) = two_digits n
  /\ String.length (two_digits n) = 2.
Proof.
  intros Hn.
  do 100 (destruct n as [|n]; [split; vm_compute; reflexivity|]).
  lia.
Qed.

Lemma length_append (a b : string) :
  String.length (a ++ b) = String.length a + String.length b.
Proof. induction a as [|c a IH]; simpl; [reflexivity|now rewrite IH]. Qed.

(** X22: for every month and every day of the month the date stamp is
    the year followed by the month, counted from 1, and the day, each on
    two digits with a leading zero where needed; so the stamp is four
    characters longer than the year. *)
Theorem formattedDate_two_digits (d : Date) :
  getMonth d < 12 -> getDate d <= 31 ->
  formattedDate d
  = Str.of_nat (getFullYear d) ++ two_digits (getMonth d + 1) ++ two_digits (getDate d)
  /\ String.length (formattedDate d) = String.length (Str.of_nat (getFullYear d)) + 4.
Proof.
  intros Hmonth Hday. unfold formattedDate.
  destruct (two_digits_spec (getMonth d + 1)) as [-> Hm]; [lia|].
  destruct (two_digits_spec (getDate d)) as [-> Hd]; [lia|].
  split; [reflexivity|].
  rewrite !length_append, Hm, Hd. lia.
Qed.

End DateStamp.

(** ** The further properties on concrete runs *)

Lemma execute_unparsable_hosts_witness :
  CartridgePathComparisonReport.execute
    (Scenario.platform Scenario.nothing_fails false [])
    (Some (Scenario.args Scenario2.bare_hosts false)) []
  = (Ok (Status3 ERROR "ERROR"
           "hostInstances must contain even number of hosts to form pairs."),
     ([] ++ [EvLog LWarn "Failed to parse hostInstances: {0}"
               [JString (message (Thrown "SyntaxError" "Unexpected token"))]])%list).
Proof.
  apply (execute_unparsable_hosts
           (Scenario.platform Scenario.nothing_fails false [])
           (Scenario.args Scenario2.bare_hosts false) []
           (Thrown "SyntaxError" "Unexpected token"));
    reflexivity.
Defined.

Lemma fetchCartridges_service_throws_witness :
  exists e' h',
    CartridgePathComparisonReport.fetchCartridges
      (Scenario.platform Scenario2.service_down false [])
      "h1" "RefArch" "v23_2" (JString "token") []
    = (Throw e', h')
    /\ In (EvLog LError ("[OCAPIServices.js]Error while calling data OCAPI: "
                         ++ Exn_toString
                              (Thrown "ServiceUnavailableException" "connection refused"))
             []) h'
    /\ forall lvl args,
        ~ In (EvLog lvl "Failed to get cartridges from host {0} for site {1}" args)
             (drop (length ([] : History)) h').
Proof.
  apply (fetchCartridges_service_throws
           (Scenario.platform Scenario2.service_down false [])
           "h1" "RefArch" "v23_2" (JString "token") []
           (Thrown "ServiceUnavailableException" "connection refused")).
  reflexivity.
Defined.

Lemma fetchCartridges_result_witness :
  ok (Scenario.answer false (data_request "h1" "RefArch" "v23_2" (JString "token"))) = true
  /\ (exists s,
         Js.get_prop
           (object (Scenario.answer false
                      (data_request "h1" "RefArch" "v23_2" (JString "token"))))
           "cartridges" = Ok (JString s)
         /\ Str.truthy s = true
         /\ ["a"; "b"; "c"] = CartridgePathComparisonReport.normalizeCartridges s)
  /\ Forall (fun t => is_cartridge_name t = true) ["a"; "b"; "c"].
Proof.
  apply (fetchCartridges_result
           (Scenario.platform Scenario.nothing_fails false [])
           "h1" "RefArch" "v23_2" (JString "token") []
           [EvServiceCall (data_request "h1" "RefArch" "v23_2" (JString "token"))]
           (CartridgePathComparisonReport.Cartridges ["a"; "b"; "c"])).
  vm_compute. reflexivity.
Defined.

Lemma compare_pairs_completed_witness :
  List.map hostInstance
    [{| hostInstance := "h1"; cartridgediff := ["c"] |};
     {| hostInstance := "h2"; cartridgediff := [] |}]
  = ["h1"; "h2"]
  /\ pairs_disjoint
       [{| hostInstance := "h1"; cartridgediff := ["c"] |};
        {| hostInstance := "h2"; cartridgediff := [] |}]
  /\ fetched [EvServiceCall (data_request "h1" "RefArch" "v23_2" (JString "token"));
              EvServiceCall (data_request "h2" "RefArch" "v23_2" (JString "token"))]
     = (fetched []
        ++ List.map (fun host => ("https://" ++ host ++ "/s/-/dw/data/" ++ "v23_2"
                                  ++ "/sites/" ++ "RefArch")%string) ["h1"; "h2"])%list.
Proof.
  apply (compare_pairs_completed
           (Scenario.platform Scenario.nothing_fails false [])
           "RefArch" "v23_2" (JString "token") ["h1"; "h2"]).
  - reflexivity.
  - vm_compute. reflexivity.
Defined.

Lemma execute_without_token_witness :
  CartridgePathComparisonReport.execute
    (Scenario.platform Scenario.nothing_fails false [])
    (Some Scenario2.args_without_service) []
  = (Ok (Status3 ERROR "ERROR" "OCAPI token failed."),
     ([EvLog LError
         "[OCAPIServices.js] - Function getToken Error - Missing required parameter: serviceName"
         []]
      ++ [EvLog LError "Failed to fetch OCAPI token" []])%list)
  /\ fetched ([EvLog LError
                 "[OCAPIServices.js] - Function getToken Error - Missing required parameter: serviceName"
                 []]
              ++ [EvLog LError "Failed to fetch OCAPI token" []])%list = fetched []
  /\ written ([EvLog LError
                 "[OCAPIServices.js] - Function getToken Error - Missing required parameter: serviceName"
                 []]
              ++ [EvLog LError "Failed to fetch OCAPI token" []])%list = written [].
Proof.
  apply (execute_without_token
           (Scenario.platform Scenario.nothing_fails false [])
           Scenario2.args_without_service [] ["h1"; "h2"; "h3"; "h4"] JNull).
  - unfold asks_token.
    split; [reflexivity|]. split; [reflexivity|]. split; [reflexivity|].
    exists []. split; [vm_compute; reflexivity|].
    split; [simpl; lia|]. split; [reflexivity|].
    vm_compute. reflexivity.
  - reflexivity.
Defined.

Lemma write_report_writes_once_witness :
  exists h' d,
    CartridgePathComparisonReport.write_report
      (Scenario.platform Scenario.nothing_fails false [])
      (Some "cartridges") {| siteId := "RefArch"; elementsToReport := [] |} []
    = (Ok tt, h')
    /\ written_to h'
       = (written_to []
          ++ [((Str.join "/" ["IMPEX"; "src"; join_item (Some "cartridges")]
                ++ "/" ++ report_file_name d "RefArch")%string,
               {| siteId := "RefArch"; elementsToReport := [] |})])%list
    /\ SendSiteCartridgePathDifference.is_report_of (formattedDate d)
         (report_file_name d "RefArch") = true.
Proof.
  apply (write_report_writes_once
           (Scenario.platform Scenario.nothing_fails false [])
           (Some "cartridges") {| siteId := "RefArch"; elementsToReport := [] |} []).
  intros h ev _. reflexivity.
Defined.

Lemma read_reports_of_the_day_witness :
  exists added h',
    SendSiteCartridgePathDifference.read_reports
      (Scenario.platform Scenario.nothing_fails false
         [(Scenario.file_A, Scenario.report_text); (Scenario.file_B, "oops")])
      [Scenario.file_A; Scenario.file_B] "20261103" [] []
    = (Ok ([] ++ added)%list, h')
    /\ Forall (fun data =>
                 exists text,
                   JSON_parse
                     (Scenario.platform Scenario.nothing_fails false
                        [(Scenario.file_A, Scenario.report_text);
                         (Scenario.file_B, "oops")]) text = Ok data) added
    /\ length added
       <= length (List.filter
                    (fun file => SendSiteCartridgePathDifference.is_report_of "20261103"
                                   (name file))
                    [Scenario.file_A; Scenario.file_B])
    /\ reads_of h'
       = (reads_of []
          ++ List.map fullPath
               (List.filter
                  (fun file => SendSiteCartridgePathDifference.is_report_of "20261103"
                                 (name file))
                  [Scenario.file_A; Scenario.file_B]))%list.
Proof.
  apply (read_reports_of_the_day
           (Scenario.platform Scenario.nothing_fails false
              [(Scenario.file_A, Scenario.report_text); (Scenario.file_B, "oops")])
           [Scenario.file_A; Scenario.file_B] "20261103" [] []).
  intros h ev _. reflexivity.
Defined.

Lemma archive_files_of_the_day_witness :
  exists h',
    SendSiteCartridgePathDifference.archive_files
      (Scenario.platform Scenario.nothing_fails false [])
      [Scenario.file_A; Scenario.file_B] "20261103"
      (File_fullPath (Scenario.platform Scenario.nothing_fails false []) Scenario.folder
       ++ File_SEPARATOR (Scenario.platform Scenario.nothing_fails false []) ++ "archive") []
    = (Ok tt, h')
    /\ renamed h'
       = (renamed []
          ++ List.map
               (fun file =>
                  (fullPath file,
                   archive_target (Scenario.platform Scenario.nothing_fails false [])
                     Scenario.folder file))
               (List.filter
                  (fun file => SendSiteCartridgePathDifference.is_report_of "20261103"
                                 (name file))
                  [Scenario.file_A; Scenario.file_B]))%list
    /\ reads_of
         (snd (SendSiteCartridgePathDifference.read_reports
                 (Scenario.platform Scenario.nothing_fails false [])
                 [Scenario.file_A; Scenario.file_B] "20261103" [] []))
       = (reads_of []
          ++ List.map fst
               (List.map
                  (fun file =>
                     (fullPath file,
                      archive_target (Scenario.platform Scenario.nothing_fails false [])
                        Scenario.folder file))
                  (List.filter
                     (fun file => SendSiteCartridgePathDifference.is_report_of "20261103"
                                    (name file))
                     [Scenario.file_A; Scenario.file_B])))%list.
Proof.
  apply (archive_files_of_the_day
           (Scenario.platform Scenario.nothing_fails false [])
           [Scenario.file_A; Scenario.file_B] "20261103" Scenario.folder [] [] []).
  intros h ev _. reflexivity.
Defined.

Lemma execute_without_reports_witness :
  SendSiteCartridgePathDifference.execute
    (Scenario.platform Scenario.nothing_fails false [(Scenario.file_A, "oops")])
    Scenario.pdict []
  = (Ok (Status1 OK),
     ([EvLog LInfo "Starting Site Cartridge Path Comparison Email Job" [];
       EvExists "IMPEX/src/cartridges";
       EvIsDirectory "IMPEX/src/cartridges";
       EvListFiles "IMPEX/src/cartridges";
       EvLog LInfo "Looking for cartridge diff files matching date: 20261103" [];
       EvLog LDebug "Processing file: cartridge_difference_20261103_RefArch.json" [];
       EvReadLines "/IMPEX/src/cartridges/cartridge_difference_20261103_RefArch.json";
       EvLog LError
         "Failed to parse JSON content from file: cartridge_difference_20261103_RefArch.json"
         [];
       EvLog LError "Error: Unexpected token" [];
       EvLog LError "Content snippet: oops" []]
      ++ [EvLog LInfo "No valid cartridge diff JSON data found to process." []])%list).
Proof.
  apply (execute_without_reports
           (Scenario.platform Scenario.nothing_fails false [(Scenario.file_A, "oops")])
           Scenario.pdict []).
  unfold reads. eexists _, _, _, _.
  split; [vm_compute; reflexivity|].
  split; [vm_compute; reflexivity|].
  split; [vm_compute; reflexivity|].
  split; [discriminate|].
  vm_compute. reflexivity.
Defined.

Lemma add_maxLen_of_first_two_witness :
  exists fields annotated,
    Scenario.report_value = JObject fields
    /\ SendSiteCartridgePathDifference.add_maxLen
         (Scenario.platform Scenario.nothing_fails false []) Scenario.report_value
       = Ok (JObject annotated)
    /\ Js.lookup_field "maxLen" annotated
       = JNumber (Fin (Z.of_nat (Nat.max (diff_length_at Scenario.report_value 0)
                                         (diff_length_at Scenario.report_value 1))))
    /\ forall key, key <> "maxLen" ->
                   Js.lookup_field key annotated = Js.lookup_field key fields.
Proof.
  apply (add_maxLen_of_first_two
           (Scenario.platform Scenario.nothing_fails false []) Scenario.report_value).
  reflexivity.
Defined.

Lemma formattedDate_two_digits_witness :
  formattedDate {| getFullYear := 2026; getMonth := 0; getDate := 9 |}
  = Str.of_nat 2026 ++ two_digits (0 + 1) ++ two_digits 9
  /\ String.length (formattedDate {| getFullYear := 2026; getMonth := 0; getDate := 9 |})
     = String.length (Str.of_nat 2026) + 4.
Proof.
  apply (formattedDate_two_digits {| getFullYear := 2026; getMonth := 0; getDate := 9 |});
    simpl; lia.
Defined.
